(** * torchfilter: [train_filter] and [_swap_batch_sequence_axes]

    A shallow embedding of [torchfilter/train/_train_filter.py].

    The module is glue code around three external libraries: PyTorch (tensors),
    fannypack ([SliceWrapper], [to_device], [to_numpy], the [Buddy] training
    helper) and the filter model's own methods.  The embedding is split
    accordingly:

    - strided tensors and the few view operations the module applies to them
      ([torch.transpose], integer indexing, slicing, [None]-indexing, [expand])
      are defined concretely, following PyTorch's view semantics;
    - [SliceWrapper] is defined over a tensor or a dictionary of tensors;
    - every call whose result the module cannot compute itself (the filter's
      methods, the loss function, the helper's [minimize] and logging, the
      Gaussian sampler, device transfer, printing) is a [Call] answered by an
      oracle over an abstract world; the calls and their answers are recorded
      in a trace, in program order. *)

From Stdlib Require Import String List ZArith Bool Arith Lia.
Import ListNotations.

Set Implicit Arguments.

(** ** Python exceptions raised by the module's own statements *)

Inductive PyErr : Type :=
| AssertionError (msg : option string)   (* a failed [assert], with its message *)
| IndexError                             (* indexing out of range, bad dimension *)
| ValueError                             (* tuple unpacking of the wrong arity *)
| RuntimeError                           (* PyTorch shape mismatch in [expand] *)
| ZeroDivisionError.                     (* [/] or [%] by zero *)

Definition is_assertion (e : PyErr) : bool :=
  match e with
  | AssertionError _ => true
  | _ => false
  end.

(** ** Strided tensors *)

Section Tensors.

(** The element type of tensors (floating point numbers in the program). *)
Variable scalar : Type.

(** A tensor is a view on a flat storage: every dimension has a size and a
    stride, and element [i0, i1, ...] lives at
    [storage_offset + i0 * stride0 + i1 * stride1 + ...]. *)
Record Tensor : Type := mkTensor {
  storage : list scalar;
  storage_offset : nat;
  dims : list (nat * nat)              (* (size, stride) per dimension *)
}.

Definition shape (t : Tensor) : list nat := map fst (dims t).
Definition stride (t : Tensor) : list nat := map snd (dims t).
Definition ndim (t : Tensor) : nat := length (dims t).

(** Position in the storage, relative to the offset, of a full index. *)
Fixpoint flat_index (ds : list (nat * nat)) (idx : list nat) : option nat :=
  match ds, idx with
  | [], [] => Some 0
  | (size, st) :: ds', i :: idx' =>
      if i <? size
      then match flat_index ds' idx' with
           | Some k => Some (i * st + k)
           | None => None
           end
      else None
  | _, _ => None
  end.

(** [tensor[i0, i1, ...]] with one index per dimension; [None] when the
    index has the wrong arity or is out of range. *)
Definition item (t : Tensor) (idx : list nat) : option scalar :=
  match flat_index (dims t) idx with
  | Some k => nth_error (storage t) (storage_offset t + k)
  | None => None
  end.

Fixpoint list_update {X : Type} (n : nat) (x : X) (l : list X) : list X :=
  match l, n with
  | [], _ => []
  | _ :: l', O => x :: l'
  | y :: l', S n' => y :: list_update n' x l'
  end.

Definition swap_entries {X : Type} (i j : nat) (l : list X) : option (list X) :=
  match nth_error l i, nth_error l j with
  | Some a, Some b => Some (list_update i b (list_update j a l))
  | _, _ => None
  end.

(** [torch.transpose(input, dim0, dim1)]: a view of the same storage with the
    two dimensions exchanged; a dimension out of range is an [IndexError]. *)
Definition torch_transpose (input : Tensor) (dim0 dim1 : nat) : PyErr + Tensor :=
  match swap_entries dim0 dim1 (dims input) with
  | Some ds => inr (mkTensor (storage input) (storage_offset input) ds)
  | None => inl IndexError
  end.

(** Lines 15-17. *)
Definition _swap_batch_sequence_axes (tensor : Tensor) : PyErr + Tensor :=
  torch_transpose tensor 0 1.

(** [tensor[i]]: select along the first dimension. *)
Definition tensor_getitem (t : Tensor) (i : nat) : PyErr + Tensor :=
  match dims t with
  | [] => inl IndexError
  | (size, st) :: ds =>
      if i <? size
      then inr (mkTensor (storage t) (storage_offset t + i * st) ds)
      else inl IndexError
  end.

(** [tensor[start:]]: slice along the first dimension; the start is clamped
    to the size, a 0-dimensional tensor cannot be sliced. *)
Definition tensor_slice_from (t : Tensor) (start : nat) : PyErr + Tensor :=
  match dims t with
  | [] => inl IndexError
  | (size, st) :: ds =>
      inr (mkTensor (storage t)
                    (storage_offset t + Nat.min start size * st)
                    ((size - start, st) :: ds))
  end.

(** [tensor[None, :, :]]: a new leading dimension of size 1 in front of a
    tensor with at least two dimensions. *)
Definition tensor_none_colon_colon (t : Tensor) : PyErr + Tensor :=
  match dims t with
  | (size0, st0) :: _ :: _ =>
      inr (mkTensor (storage t) (storage_offset t) ((1, size0 * st0) :: dims t))
  | _ => inl IndexError
  end.

Fixpoint expand_dims (ds : list (nat * nat)) (sizes : list nat)
  : option (list (nat * nat)) :=
  match ds, sizes with
  | [], [] => Some []
  | (size, st) :: ds', n :: sizes' =>
      match expand_dims ds' sizes' with
      | Some r =>
          if size =? n then Some ((size, st) :: r)
          else if size =? 1 then Some ((n, 0) :: r)
          else None
      | None => None
      end
  | _, _ => None
  end.

(** [tensor.expand(sizes)]: sizes are aligned on the right; a dimension of
    size 1 is repeated with stride 0, new leading dimensions have stride 0,
    any other mismatch is a [RuntimeError]. *)
Definition tensor_expand (t : Tensor) (sizes : list nat) : PyErr + Tensor :=
  let extra := length sizes - ndim t in
  if length sizes <? ndim t then inl RuntimeError
  else match expand_dims (dims t) (skipn extra sizes) with
       | Some r =>
           inr (mkTensor (storage t) (storage_offset t)
                         (map (fun n => (n, 0)) (firstn extra sizes) ++ r))
       | None => inl RuntimeError
       end.

End Tensors.

Arguments mkTensor {scalar} _ _ _.


(** ** fannypack's [SliceWrapper]

    [fannypack.utils.SliceWrapper] gives one slicing interface to a tensor and
    to a dictionary of tensors.  Observations and controls have type
    [Union[torch.Tensor, Dict[str, torch.Tensor]]].  A wrapped dictionary takes
    its length and shape from its values, so the model gives it at least one
    entry; entries keep their insertion order. *)

Section SliceWrappers.

Variable scalar : Type.

Inductive TensorOrDict : Type :=
| TensorData (t : Tensor scalar)
| DictData (first : string * Tensor scalar) (rest : list (string * Tensor scalar)).

Definition dict_values (data : TensorOrDict) : list (Tensor scalar) :=
  match data with
  | TensorData t => [t]
  | DictData kv rest => snd kv :: map snd rest
  end.

Fixpoint map_values (f : Tensor scalar -> PyErr + Tensor scalar)
  (kvs : list (string * Tensor scalar)) : PyErr + list (string * Tensor scalar) :=
  match kvs with
  | [] => inr []
  | (k, v) :: kvs' =>
      match f v with
      | inl e => inl e
      | inr v' =>
          match map_values f kvs' with
          | inl e => inl e
          | inr r => inr ((k, v') :: r)
          end
      end
  end.

(** [SliceWrapper(data).map(function)]: the function applied to the tensor, or
    to every value of the dictionary in order; the result is the bare tensor or
    dictionary.  The first exception raised by the function propagates. *)
Definition SliceWrapper_map (function : Tensor scalar -> PyErr + Tensor scalar)
  (data : TensorOrDict) : PyErr + TensorOrDict :=
  match data with
  | TensorData t =>
      match function t with
      | inl e => inl e
      | inr t' => inr (TensorData t')
      end
  | DictData (k, v) rest =>
      match function v with
      | inl e => inl e
      | inr v' =>
          match map_values function rest with
          | inl e => inl e
          | inr rest' => inr (DictData (k, v') rest')
          end
      end
  end.

Fixpoint common_prefix (a b : list nat) : list nat :=
  match a, b with
  | x :: a', y :: b' => if x =? y then x :: common_prefix a' b' else []
  | _, _ => []
  end.

(** [SliceWrapper(data).shape]: the shape of the tensor, or the dimensions
    shared by every value of the dictionary (the longest common prefix of
    their shapes). *)
Definition SliceWrapper_shape (data : TensorOrDict) : list nat :=
  match data with
  | TensorData t => shape t
  | DictData (_, v) rest =>
      fold_left (fun acc kv => common_prefix acc (shape (snd kv))) rest (shape v)
  end.

(** [SliceWrapper(data)[index]] for an integer index. *)
Definition SliceWrapper_getitem (data : TensorOrDict) (index : nat)
  : PyErr + TensorOrDict :=
  SliceWrapper_map (fun t => tensor_getitem t index) data.

(** [SliceWrapper(data)[start:]]. *)
Definition SliceWrapper_slice_from (data : TensorOrDict) (start : nat)
  : PyErr + TensorOrDict :=
  SliceWrapper_map (fun t => tensor_slice_from t start) data.

(** [torchfilter.types.TrajectoryTorch]: one minibatch of subsequences. *)
Record TrajectoryTorch : Type := mkTrajectory {
  states : Tensor scalar;
  observations : TensorOrDict;
  controls : TensorOrDict
}.

End SliceWrappers.

Arguments TensorData {scalar} _.
Arguments DictData {scalar} _ _.
Arguments mkTrajectory {scalar} _ _ _.

(** ** Small helpers for the checks of [train_filter] *)

Fixpoint list_eqb {X : Type} (eqb : X -> X -> bool) (a b : list X) : bool :=
  match a, b with
  | [], [] => true
  | x :: a', y :: b' => eqb x y && list_eqb eqb a' b'
  | _, _ => false
  end.

(** [T, N, state_dim = shape]. *)
Definition unpack3 (s : list nat) : PyErr + (nat * nat * nat) :=
  match s with
  | [a; b; c] => inr (a, b, c)
  | _ => inl ValueError
  end.

(** [N == dataloader.batch_size], where the batch size may be [None]. *)
Definition eq_batch_size (N : nat) (batch_size : option nat) : bool :=
  match batch_size with
  | Some n => N =? n
  | None => false
  end.

(** The filter model, as far as [train_filter] inspects it. *)
Record FilterModel : Type := mkFilterModel {
  state_dim : nat;
  training : bool;
  is_VirtualSensorExtendedKalmanFilter : bool
}.

(** ** The training loop *)

Declare Scope py_scope.
Delimit Scope py_scope with py.

Section TrainFilter.

(** Tensor elements; Python and NumPy floating point values; the exceptions
    external code may raise; the state of everything outside this module (the
    model's parameters and beliefs, the optimizer, the random generator, the
    log). *)
Variables (scalar number ExtExn World : Type).

(** The literal [0.0], [+] and [/ len(dataloader)] on the epoch loss.  The
    arithmetic is floating point and stays abstract. *)
Variable number_zero : number.
Variable number_add : number -> number -> number.
Variable number_div : number -> nat -> number.

(** The [DataLoader]: whether its dataset is a [SubsequenceDataset], its
    [batch_size] attribute, and the minibatches one pass yields;
    [len(dataloader)] is the number of those minibatches. *)
Record DataLoader : Type := mkDataLoader {
  dataset_is_SubsequenceDataset : bool;
  batch_size : option nat;
  batches : list (TrajectoryTorch scalar)
}.

(** The calls into external code, in the order of the source. *)
Inductive Call : Type :=
| to_device (batch_data : TrajectoryTorch scalar)
    (* fannypack.utils.to_device(batch_data, buddy.device), line 59 *)
| virtual_sensor_initialize_beliefs (observations : TensorOrDict scalar)
    (* filter_model.virtual_sensor_initialize_beliefs, lines 86-90 *)
| MultivariateNormal_sample (loc covariance_matrix : Tensor scalar)
    (* torch.distributions.MultivariateNormal(...).sample(), lines 96-98 *)
| initialize_beliefs (mean covariance : Tensor scalar)
    (* filter_model.initialize_beliefs, lines 100-102 *)
| forward_loop (observations controls : TensorOrDict scalar)
    (* filter_model.forward_loop, lines 105-108 *)
| loss_function (input target : Tensor scalar)
    (* the loss_function argument, line 112 *)
| minimize (loss : Tensor scalar) (optimizer_name : string)
    (* buddy.minimize, line 113 *)
| to_numpy (loss : Tensor scalar)
    (* fannypack.utils.to_numpy, line 114 *)
| log_scalar (scope name : string) (value : Tensor scalar)
    (* buddy.log_scalar(name, value) inside buddy.log_scope(scope), 118-119 *)
| print (msg : string) (value : number).
    (* line 123 *)

Definition Answer (c : Call) : Type :=
  match c with
  | to_device _ => TrajectoryTorch scalar
  | MultivariateNormal_sample _ _ => Tensor scalar
  | forward_loop _ _ => Tensor scalar
  | loss_function _ _ => Tensor scalar
  | to_numpy _ => number
  | virtual_sensor_initialize_beliefs _ => unit
  | initialize_beliefs _ _ => unit
  | minimize _ _ => unit
  | log_scalar _ _ _ => unit
  | print _ _ => unit
  end.

(** External code answers a call with a value or an exception, and changes
    the world. *)
Variable ext : forall c : Call, World -> (ExtExn + Answer c) * World.

(** An exception is raised by a statement of this module, or comes out of an
    external call. *)
Inductive exn : Type :=
| Py (e : PyErr)
| Raised (e : ExtExn).

(** One external call and its answer. *)
Inductive Event : Type :=
| Ev (c : Call) (r : ExtExn + Answer c).

Record St : Type := mkSt {
  world : World;
  trace : list Event
}.

(** Computations: run from a state to a value or an exception, and a state. *)
Definition M (X : Type) : Type := St -> (exn + X) * St.

Definition ret {X : Type} (x : X) : M X := fun st => (inr x, st).

Definition bind {X Y : Type} (m : M X) (k : X -> M Y) : M Y :=
  fun st =>
    match m st with
    | (inl e, st') => (inl e, st')
    | (inr x, st') => k x st'
    end.

Definition raise {X : Type} (e : PyErr) : M X := fun st => (inl (Py e), st).

Definition lift {X : Type} (r : PyErr + X) : M X :=
  match r with
  | inl e => raise e
  | inr x => ret x
  end.

(** [assert cond, msg]. *)
Definition assert_ (cond : bool) (msg : option string) : M unit :=
  if cond then ret tt else raise (AssertionError msg).

Definition call (c : Call) : M (Answer c) :=
  fun st =>
    let (r, w) := ext c (world st) in
    let st' := mkSt w (trace st ++ [Ev c r]) in
    match r with
    | inl e => (inl (Raised e), st')
    | inr v => (inr v, st')
    end.

Notation "x <- m ;; k" := (bind m (fun x => k))
  (at level 100, m at next level, right associativity) : py_scope.
Notation "m ;; k" := (bind m (fun _ => k))
  (at level 100, right associativity) : py_scope.
Notation "' pat <- m ;; k" := (bind m (fun x => match x with pat => k end))
  (at level 100, pat pattern, m at next level, right associativity) : py_scope.

Local Open Scope py_scope.

(** The arguments of [train_filter]; the training helper [buddy] and the
    [loss_function] are behind [ext]. *)
Variable filter_model : FilterModel.
Variable dataloader : DataLoader.
Variable initial_covariance : Tensor scalar.
Variable log_interval : Z.
Variable measurement_initialize : bool.
Variable optimizer_name : string.

(** Lines 72-77, on the tensors after the axis swap. *)
Definition shape_checks (batch_idx : nat) (states_labels : Tensor scalar)
  (observations controls : TensorOrDict scalar) : M (nat * nat * nat) :=
  ' (T, N, state_dim') <- lift (unpack3 (shape states_labels)) ;;
  assert_ (state_dim' =? state_dim filter_model) None ;;
  assert_ (list_eqb Nat.eqb (firstn 2 (SliceWrapper_shape observations)) [T; N])
          None ;;
  assert_ (list_eqb Nat.eqb (firstn 2 (SliceWrapper_shape controls)) [T; N])
          None ;;
  assert_ (negb (batch_idx =? 0) || eq_batch_size N (batch_size dataloader))
          None ;;
  ret (T, N, state_dim').

(** Lines 79-102. *)
Definition populate_initial_belief (N state_dim' : nat)
  (states_labels : Tensor scalar) (observations : TensorOrDict scalar) : M unit :=
  if measurement_initialize then
    assert_ (is_VirtualSensorExtendedKalmanFilter filter_model)
            (Some "Only supported for virtual sensor EKFs!"%string) ;;
    observations0 <- lift (SliceWrapper_getitem observations 0) ;;
    call (virtual_sensor_initialize_beliefs observations0)
  else
    unsqueezed <- lift (tensor_none_colon_colon initial_covariance) ;;
    initial_states_covariance <-
      lift (tensor_expand unsqueezed [N; state_dim'; state_dim']) ;;
    states_labels0 <- lift (tensor_getitem states_labels 0) ;;
    initial_states <-
      call (MultivariateNormal_sample states_labels0 initial_states_covariance) ;;
    call (initialize_beliefs initial_states initial_states_covariance).

(** Lines 116-119. *)
Definition logging (batch_idx : nat) (loss : Tensor scalar) : M unit :=
  if (log_interval =? 0)%Z then raise ZeroDivisionError
  else if (Z.of_nat batch_idx mod log_interval =? 0)%Z
       then call (log_scalar "train_filter_recurrent"%string "Training loss"%string loss)
       else ret tt.

(** Lines 58-119: the body of the loop for one minibatch; returns the updated
    [epoch_loss]. *)
Definition train_filter_batch (batch_idx : nat)
  (batch_data : TrajectoryTorch scalar) (epoch_loss : number) : M number :=
  batch_gpu <- call (to_device batch_data) ;;
  states_labels <- lift (_swap_batch_sequence_axes (states batch_gpu)) ;;
  observations <-
    lift (SliceWrapper_map (@_swap_batch_sequence_axes scalar)
                           (observations batch_gpu)) ;;
  controls <-
    lift (SliceWrapper_map (@_swap_batch_sequence_axes scalar)
                           (controls batch_gpu)) ;;
  ' (T, N, state_dim') <- shape_checks batch_idx states_labels observations controls ;;
  populate_initial_belief N state_dim' states_labels observations ;;
  observations1 <- lift (SliceWrapper_slice_from observations 1) ;;
  controls1 <- lift (SliceWrapper_slice_from controls 1) ;;
  state_predictions <- call (forward_loop observations1 controls1) ;;
  assert_ (list_eqb Z.eqb (map Z.of_nat (shape state_predictions))
                    [Z.of_nat T - 1; Z.of_nat N; Z.of_nat state_dim']%Z)
          None ;;
  states_labels1 <- lift (tensor_slice_from states_labels 1) ;;
  loss <- call (loss_function state_predictions states_labels1) ;;
  call (minimize loss optimizer_name) ;;
  loss_np <- call (to_numpy loss) ;;
  let epoch_loss := number_add epoch_loss loss_np in
  logging batch_idx loss ;;
  ret epoch_loss.

(** Line 57: [for batch_idx, batch_data in enumerate(tqdm(dataloader))];
    [tqdm] hands the minibatches through and draws a progress bar. *)
Fixpoint train_filter_loop (batch_idx : nat)
  (remaining : list (TrajectoryTorch scalar)) (epoch_loss : number) : M number :=
  match remaining with
  | [] => ret epoch_loss
  | batch_data :: remaining' =>
      epoch_loss' <- train_filter_batch batch_idx batch_data epoch_loss ;;
      train_filter_loop (S batch_idx) remaining' epoch_loss'
  end.

(** Lines 47-123.  The division of line 122 raises when [epoch_loss] is still
    the Python float [0.0] and [len(dataloader)] is 0. *)
Definition train_filter : M unit :=
  assert_ (dataset_is_SubsequenceDataset dataloader) None ;;
  assert_ (list_eqb Nat.eqb (shape initial_covariance)
                    [state_dim filter_model; state_dim filter_model])
          None ;;
  assert_ (training filter_model)
          (Some "Model needs to be set to train mode"%string) ;;
  epoch_loss <- train_filter_loop 0 (batches dataloader) number_zero ;;
  if length (batches dataloader) =? 0 then raise ZeroDivisionError
  else call (print "(train_filter) Epoch training loss: "%string
                   (number_div epoch_loss (length (batches dataloader)))).

End TrainFilter.

Arguments to_device {scalar number} _.
Arguments virtual_sensor_initialize_beliefs {scalar number} _.
Arguments MultivariateNormal_sample {scalar number} _ _.
Arguments initialize_beliefs {scalar number} _ _.
Arguments forward_loop {scalar number} _ _.
Arguments loss_function {scalar number} _ _.
Arguments minimize {scalar number} _ _.
Arguments to_numpy {scalar number} _.
Arguments log_scalar {scalar number} _ _ _.
Arguments print {scalar number} _ _.
Arguments Py {ExtExn} _.
Arguments Raised {ExtExn} _.
Arguments Ev {scalar number ExtExn} _ _.
Arguments mkSt {scalar number ExtExn World} _ _.
Arguments mkDataLoader {scalar} _ _ _.

(** ** Reading a trace *)

Section Traces.

Variables (scalar number ExtExn : Type).

(** A gradient step: a call of [buddy.minimize]. *)
Definition is_minimize (ev : Event scalar number ExtExn) : bool :=
  match ev with
  | Ev (minimize _ _) _ => true
  | _ => false
  end.

Definition gradient_steps (evs : list (Event scalar number ExtExn)) : nat :=
  length (filter is_minimize evs).

Definition is_log_scalar (ev : Event scalar number ExtExn) : bool :=
  match ev with
  | Ev (log_scalar _ _ _) _ => true
  | _ => false
  end.

(** The value a [to_numpy] call returned. *)
Definition numpy_loss (ev : Event scalar number ExtExn) : option number :=
  match ev with
  | Ev c r =>
      match c return ExtExn + Answer c -> option number with
      | to_numpy _ => fun r => match r with inr v => Some v | inl _ => None end
      | _ => fun _ => None
      end r
  end.

(** The per-minibatch loss values of a run, in order. *)
Fixpoint numpy_losses (evs : list (Event scalar number ExtExn)) : list number :=
  match evs with
  | [] => []
  | ev :: evs' =>
      match numpy_loss ev with
      | Some v => v :: numpy_losses evs'
      | None => numpy_losses evs'
      end
  end.

(** What the belief initialization of lines 79-102 calls: the virtual sensor
    on the observations of the first timestep, or the sampler around the first
    ground-truth states followed by [initialize_beliefs]. *)
Definition belief_initialization (filter_model : FilterModel)
  (initial_covariance : Tensor scalar) (measurement_initialize : bool)
  (N state_dim' : nat) (states_labels : Tensor scalar)
  (observations : TensorOrDict scalar)
  (evs : list (Event scalar number ExtExn)) : Prop :=
  if measurement_initialize then
    is_VirtualSensorExtendedKalmanFilter filter_model = true
    /\ exists observations0,
         SliceWrapper_getitem observations 0 = inr observations0
         /\ evs = [Ev (virtual_sensor_initialize_beliefs observations0) (inr tt)]
  else
    exists unsqueezed covariance loc mean,
      tensor_none_colon_colon initial_covariance = inr unsqueezed
      /\ tensor_expand unsqueezed [N; state_dim'; state_dim'] = inr covariance
      /\ tensor_getitem states_labels 0 = inr loc
      /\ evs = [Ev (MultivariateNormal_sample loc covariance) (inr mean);
                Ev (initialize_beliefs mean covariance) (inr tt)].

(** What the logging of lines 116-119 calls at a given minibatch index. *)
Definition logging_events (log_interval : Z) (batch_idx : nat)
  (loss : Tensor scalar) : list (Event scalar number ExtExn) :=
  if (Z.of_nat batch_idx mod log_interval =? 0)%Z
  then [Ev (log_scalar "train_filter_recurrent"%string "Training loss"%string loss)
           (inr tt)]
  else [].

End Traces.

Arguments belief_initialization {scalar number ExtExn} _ _ _ _ _ _ _ _.
Arguments logging_events {scalar number ExtExn} _ _ _.

(** ** Describing runs *)

Section Runs.

Variables (scalar number ExtExn World : Type).
Variable ext : forall c : Call scalar number, World -> (ExtExn + Answer c) * World.

(** [interaction ext w evs w']: [evs] is a sequence of calls answered by the
    external code, starting in world [w] and ending in world [w']. *)
Inductive interaction
  : World -> list (Event scalar number ExtExn) -> World -> Prop :=
| interaction_nil w : interaction w [] w
| interaction_cons w c r w1 evs w2 :
    ext c w = (r, w1) ->
    interaction w1 evs w2 ->
    interaction w (Ev c r :: evs) w2.

Definition answered (ev : Event scalar number ExtExn) : Prop :=
  match ev with
  | Ev _ (inr _) => True
  | Ev _ (inl _) => False
  end.

(** The result of a run agrees with the answers it received: the run ends
    with an external exception exactly when its last call raised it, and
    every other call was answered with a value. *)
Definition agrees {X : Type} (evs : list (Event scalar number ExtExn))
  (r : exn ExtExn + X) : Prop :=
  match r with
  | inl (Raised e) =>
      exists evs0 c, evs = evs0 ++ [Ev c (inl e)] /\ Forall answered evs0
  | _ => Forall answered evs
  end.

(** A computation is transparent when every run of it appends to the trace the
    calls it made, changes the world through those calls only, and agrees
    with their answers. *)
Definition transparent {X : Type} (m : M scalar number ExtExn World X) : Prop :=
  forall st,
  exists evs,
    trace (snd (m st)) = trace st ++ evs
    /\ interaction (world st) evs (world (snd (m st)))
    /\ agrees evs (fst (m st)).

(** [ensures m st Q]: the result and final state of running [m] from [st]
    satisfy [Q]. *)
Definition ensures {X : Type} (m : M scalar number ExtExn World X)
  (st : St scalar number ExtExn World)
  (Q : exn ExtExn + X -> St scalar number ExtExn World -> Prop) : Prop :=
  Q (fst (m st)) (snd (m st)).

End Runs.

(** ** A concrete instance

    Integer tensor elements and losses, exceptions named by a string, and a
    world that counts the external calls made so far.  The external code of
    the instance answers every call: the device transfer and the sampler give
    back their argument, the filter predicts zeros of the leading shape of the
    observations, the loss is the call counter. *)

Module Demo.

Definition zeros (sizes : list nat) : Tensor Z :=
  mkTensor [0%Z] 0 (map (fun n => (n, 0)) sizes).

Definition ext (state_dim : nat) (c : Call Z Z) (w : nat)
  : (string + Answer c) * nat :=
  (match c return string + Answer c with
   | to_device batch_data => inr batch_data
   | virtual_sensor_initialize_beliefs _ => inr tt
   | MultivariateNormal_sample loc _ => inr loc
   | initialize_beliefs _ _ => inr tt
   | forward_loop obs _ =>
       inr (zeros (firstn 2 (SliceWrapper_shape obs) ++ [state_dim]))
   | loss_function _ _ => inr (mkTensor [Z.of_nat w] 0 [])
   | minimize _ _ => inr tt
   | to_numpy loss =>
       inr (match item loss [] with Some v => v | None => 0%Z end)
   | log_scalar _ _ _ => inr tt
   | print _ _ => inr tt
   end, S w).

(** External code whose optimizer step fails. *)
Definition ext_failing (state_dim : nat) (c : Call Z Z) (w : nat)
  : (string + Answer c) * nat :=
  match c return (string + Answer c) * nat with
  | minimize _ _ => (inl "optimizer failed"%string, S w)
  | c' => ext state_dim c' w
  end.

Definition div (x : Z) (n : nat) : Z := (x / Z.of_nat n)%Z.

(** Two trajectories of three timesteps, state dimension 1, batch-major. *)
Definition states_2x3x1 : Tensor Z :=
  mkTensor [10; 11; 12; 20; 21; 22]%Z 0 [(2, 3); (3, 1); (1, 1)].

Definition observations_2x3x2 : Tensor Z :=
  mkTensor [1; 2; 3; 4; 5; 6; 7; 8; 9; 10; 11; 12]%Z 0 [(2, 6); (3, 2); (2, 1)].

Definition controls_2x3x1 : Tensor Z :=
  mkTensor [0; 1; 0; 1; 0; 1]%Z 0 [(2, 3); (3, 1); (1, 1)].

Definition batch : TrajectoryTorch Z :=
  mkTrajectory states_2x3x1
               (TensorData observations_2x3x2)
               (DictData ("u"%string, controls_2x3x1) []).

(** A minibatch of three trajectories. *)
Definition batch3 : TrajectoryTorch Z :=
  mkTrajectory (zeros [3; 3; 1]) (TensorData (zeros [3; 3; 2]))
               (TensorData (zeros [3; 3; 1])).

(** A minibatch whose states have dimension 2. *)
Definition batch_dim2 : TrajectoryTorch Z :=
  mkTrajectory (zeros [2; 3; 2]) (TensorData (zeros [2; 3; 2]))
               (TensorData (zeros [2; 3; 1])).

Definition model : FilterModel := mkFilterModel 1 true false.
Definition ekf_model : FilterModel := mkFilterModel 1 true true.

Definition covariance : Tensor Z := mkTensor [4%Z] 0 [(1, 1); (1, 1)].

Definition loader (bs : list (TrajectoryTorch Z)) : DataLoader Z :=
  mkDataLoader true (Some 2) bs.

Definition st0 : St Z Z string nat := mkSt 0 [].

Definition name : string := "train_filter_recurrent"%string.

(** [train_filter] and its loop body on the instance, from the empty trace. *)
Definition run (model : FilterModel) (bs : list (TrajectoryTorch Z))
  (log_interval : Z) (measurement_initialize : bool)
  : (exn string + unit) * St Z Z string nat :=
  train_filter 0%Z Z.add div (ext 1) model (loader bs) covariance
               log_interval measurement_initialize name st0.

Definition run_batch (model : FilterModel) (log_interval : Z)
  (measurement_initialize : bool) (batch_idx : nat)
  (batch_data : TrajectoryTorch Z)
  : (exn string + Z) * St Z Z string nat :=
  train_filter_batch Z.add (ext 1) model (loader []) covariance
                     log_interval measurement_initialize name
                     batch_idx batch_data 0%Z st0.

End Demo.

(** ** Further readers of a trace, and further concrete inputs *)

Section MoreTraces.

Variables (scalar number ExtExn : Type).

Definition is_print (ev : Event scalar number ExtExn) : bool :=
  match ev with
  | Ev (print _ _) _ => true
  | _ => false
  end.

(** The minibatches handed to [to_device], in order. *)
Fixpoint device_transfers (evs : list (Event scalar number ExtExn))
  : list (TrajectoryTorch scalar) :=
  match evs with
  | [] => []
  | Ev (to_device batch_data) _ :: evs' => batch_data :: device_transfers evs'
  | _ :: evs' => device_transfers evs'
  end.

End MoreTraces.

(** The exceptions of the tensor operations and of tuple unpacking. *)
Definition is_shape_error (e : PyErr) : bool :=
  match e with
  | IndexError | ValueError | RuntimeError => true
  | _ => false
  end.

(** The minibatch indices below [n] at which line 117 holds. *)
Definition logged_indices (log_interval : Z) (start n : nat) : list nat :=
  filter (fun i => (Z.of_nat i mod log_interval =? 0)%Z) (seq start n).

Module Cases.

(** A vector: one dimension only. *)
Definition vector : Tensor Z := mkTensor [1; 2; 3]%Z 0 [(3, 1)].


(** A minibatch of two trajectories of length 0. *)
Definition batch_empty : TrajectoryTorch Z :=
  mkTrajectory (Demo.zeros [2; 0; 1]) (TensorData (Demo.zeros [2; 0; 2]))
               (TensorData (Demo.zeros [2; 0; 1])).

End Cases.

(** * Properties *)

(** ** The axis swap *)

Section TensorFacts.

Variable scalar : Type.
Implicit Types t : Tensor scalar.

Lemma swap_batch_sequence_axes_dims t d0 d1 ds :
  dims t = d0 :: d1 :: ds ->
  _swap_batch_sequence_axes t
  = inr (mkTensor (storage t) (storage_offset t) (d1 :: d0 :: ds)).
Proof.
  intros E. unfold _swap_batch_sequence_axes, torch_transpose, swap_entries.
  rewrite E. reflexivity.
Qed.

Lemma flat_index_swap (d0 d1 : nat * nat) ds i j idx :
  flat_index (d1 :: d0 :: ds) (j :: i :: idx)
  = flat_index (d0 :: d1 :: ds) (i :: j :: idx).
Proof.
  destruct d0 as [n0 s0], d1 as [n1 s1]. simpl.
  destruct (i <? n0), (j <? n1); try reflexivity.
  destruct (flat_index ds idx); [f_equal; lia | reflexivity].
Qed.

(** C3. On every tensor with at least two dimensions the axis swap succeeds;
    it maps shape (N, T, ...) to (T, N, ...); element [k, n, ...] of the
    output is element [n, k, ...] of the input; and swapping the output again
    gives back the input. *)
Theorem swap_batch_sequence_axes_spec t :
  2 <= ndim t ->
  exists t' N T rest,
    _swap_batch_sequence_axes t = inr t'
    /\ shape t = N :: T :: rest
    /\ shape t' = T :: N :: rest
    /\ (forall n k idx, item t' (k :: n :: idx) = item t (n :: k :: idx))
    /\ _swap_batch_sequence_axes t' = inr t.
Proof.
  intros H. destruct t as [sto off ds]. unfold ndim in H. simpl in H.
  destruct ds as [|d0 [|d1 ds]]; simpl in H; try lia.
  exists (mkTensor sto off (d1 :: d0 :: ds)), (fst d0), (fst d1), (map fst ds).
  split; [apply swap_batch_sequence_axes_dims; reflexivity|].
  split; [reflexivity|]. split; [reflexivity|].
  split.
  - intros n k idx. unfold item. simpl dims.
    rewrite flat_index_swap. reflexivity.
  - apply swap_batch_sequence_axes_dims. reflexivity.
Qed.

End TensorFacts.

(** The swap on the batch-major states of the concrete instance. *)
Lemma swap_batch_sequence_axes_spec_witness :
  exists t' N T rest,
    _swap_batch_sequence_axes Demo.states_2x3x1 = inr t'
    /\ shape Demo.states_2x3x1 = N :: T :: rest
    /\ shape t' = T :: N :: rest
    /\ (forall n k idx,
          item t' (k :: n :: idx) = item Demo.states_2x3x1 (n :: k :: idx))
    /\ _swap_batch_sequence_axes t' = inr Demo.states_2x3x1.
Proof.
  apply (@swap_batch_sequence_axes_spec Z Demo.states_2x3x1).
  vm_compute. lia.
Defined.

(** ** Reasoning about computations *)

Section MonadFacts.

Variables (scalar number ExtExn World : Type).
Variable ext : forall c : Call scalar number, World -> (ExtExn + Answer c) * World.

Local Abbreviation M := (M scalar number ExtExn World).
Local Abbreviation St := (St scalar number ExtExn World).
Local Abbreviation Event := (Event scalar number ExtExn).

Local Open Scope py_scope.

Lemma bind_inr {X Y : Type} (m : M X) (k : X -> M Y) st y st' :
  bind m k st = (inr y, st') ->
  exists x st1, m st = (inr x, st1) /\ k x st1 = (inr y, st').
Proof.
  unfold bind. destruct (m st) as [[e|x] st1]; [discriminate|].
  intros H. exists x, st1. split; [reflexivity | exact H].
Qed.

Lemma bind_step {X Y : Type} (m : M X) (k : X -> M Y) st x st1 :
  m st = (inr x, st1) -> bind m k st = k x st1.
Proof. intros H. unfold bind. rewrite H. reflexivity. Qed.

Lemma lift_inr {X : Type} (r : PyErr + X) (st : St) x st' :
  lift r st = (inr x, st') -> r = inr x /\ st' = st.
Proof.
  destruct r as [e|x0]; simpl; unfold raise, ret; intros H; inversion H.
  split; reflexivity.
Qed.

Lemma assert_inr (cond : bool) msg (st : St) u st' :
  assert_ cond msg st = (inr u, st') -> cond = true /\ st' = st.
Proof.
  unfold assert_. destruct cond; unfold raise, ret; intros H; inversion H.
  split; reflexivity.
Qed.

Lemma call_inr (c : Call scalar number) (st : St) v st' :
  call ext c st = (inr v, st') ->
  exists w, ext c (world st) = (inr v, w)
            /\ st' = mkSt w (trace st ++ [Ev c (inr v)]).
Proof.
  unfold call. destruct (ext c (world st)) as [[e|v0] w]; intros H; inversion H.
  exists w. split; reflexivity.
Qed.

(** *** Runs are honest about external calls *)

Lemma interaction_app w evs1 w1 evs2 w2 :
  interaction ext w evs1 w1 -> interaction ext w1 evs2 w2 ->
  interaction ext w (evs1 ++ evs2) w2.
Proof.
  induction 1; simpl; intros H2; [exact H2|].
  econstructor; [eassumption|]. apply IHinteraction. exact H2.
Qed.

Lemma transparent_ret {X : Type} (x : X) : transparent ext (ret x).
Proof.
  intros st. exists []. simpl. rewrite app_nil_r.
  repeat split; constructor.
Qed.

Lemma transparent_raise {X : Type} (e : PyErr) : transparent ext (@raise _ _ _ _ X e).
Proof.
  intros st. exists []. simpl. rewrite app_nil_r.
  repeat split; constructor.
Qed.

Lemma transparent_lift {X : Type} (r : PyErr + X) : transparent ext (lift r).
Proof. destruct r; [apply transparent_raise | apply transparent_ret]. Qed.

Lemma transparent_assert cond msg : transparent ext (assert_ cond msg).
Proof.
  unfold assert_. destruct cond; [apply transparent_ret | apply transparent_raise].
Qed.

Lemma transparent_call (c : Call scalar number) : transparent ext (call ext c).
Proof.
  intros st. unfold call.
  destruct (ext c (world st)) as [r w] eqn:E.
  exists [Ev c r]. destruct r as [e|v]; simpl.
  - split; [reflexivity|]. split.
    + econstructor; [exact E | constructor].
    + exists [], c. split; [reflexivity | constructor].
  - split; [reflexivity|]. split.
    + econstructor; [exact E | constructor].
    + constructor; [exact I | constructor].
Qed.

Lemma transparent_bind {X Y : Type} (m : M X) (k : X -> M Y) :
  transparent ext m -> (forall x, transparent ext (k x)) ->
  transparent ext (bind m k).
Proof.
  intros Hm Hk st. unfold bind.
  destruct (Hm st) as (evs1 & T1 & I1 & A1).
  destruct (m st) as [[e|x] st1]; simpl in *.
  - exists evs1. repeat split; assumption.
  - destruct (Hk x st1) as (evs2 & T2 & I2 & A2).
    exists (evs1 ++ evs2). split; [|split].
    + rewrite T2, T1, app_assoc. reflexivity.
    + eapply interaction_app; eassumption.
    + destruct (fst (k x st1)) as [[e|e]|y]; simpl in *.
      * apply Forall_app. split; assumption.
      * destruct A2 as (evs0 & c & -> & F).
        exists (evs1 ++ evs0), c. split; [apply app_assoc|].
        apply Forall_app. split; assumption.
      * apply Forall_app. split; assumption.
Qed.

(** *** Symbolic execution

    The rules follow a computation statement by statement, one case per way
    a statement can end. *)

Lemma ensures_ret {X : Type} (x : X) st (Q : exn ExtExn + X -> St -> Prop) :
  Q (inr x) st -> ensures (ret x) st Q.
Proof. intros H. exact H. Qed.

Lemma ensures_raise {X : Type} e st (Q : exn ExtExn + X -> St -> Prop) :
  Q (inl (Py e)) st -> ensures (raise e) st Q.
Proof. intros H. exact H. Qed.

Lemma ensures_lift {X : Type} (r : PyErr + X) st
  (Q : exn ExtExn + X -> St -> Prop) :
  (forall e, r = inl e -> Q (inl (Py e)) st) ->
  (forall x, r = inr x -> Q (inr x) st) ->
  ensures (lift r) st Q.
Proof.
  intros He Hx. destruct r as [e|x]; [apply He | apply Hx]; reflexivity.
Qed.

Lemma ensures_assert cond msg st (Q : exn ExtExn + unit -> St -> Prop) :
  (cond = false -> Q (inl (Py (AssertionError msg))) st) ->
  (cond = true -> Q (inr tt) st) ->
  ensures (assert_ cond msg) st Q.
Proof.
  intros Hf Ht. destruct cond; [apply Ht | apply Hf]; reflexivity.
Qed.

Lemma ensures_call (c : Call scalar number) st
  (Q : exn ExtExn + Answer c -> St -> Prop) :
  (forall e w, ext c (world st) = (inl e, w) ->
               Q (inl (Raised e)) (mkSt w (trace st ++ [Ev c (inl e)]))) ->
  (forall v w, ext c (world st) = (inr v, w) ->
               Q (inr v) (mkSt w (trace st ++ [Ev c (inr v)]))) ->
  ensures (call ext c) st Q.
Proof.
  intros He Hv. unfold ensures, call.
  destruct (ext c (world st)) as [[e|v] w] eqn:E; simpl;
    [apply He | apply Hv]; reflexivity.
Qed.

Lemma ensures_bind {X Y : Type} (m : M X) (k : X -> M Y) st
  (Q : exn ExtExn + Y -> St -> Prop) :
  ensures m st (fun r st1 =>
                  match r with
                  | inl e => Q (inl e) st1
                  | inr x => ensures (k x) st1 Q
                  end) ->
  ensures (bind m k) st Q.
Proof.
  unfold ensures, bind. destruct (m st) as [[e|x] st1]; simpl; intros H; exact H.
Qed.

End MonadFacts.

Arguments bind_step {scalar number ExtExn World X Y m} k {st x st1} _.

(** One step of symbolic execution: the head statement of the computation is
    taken apart and its cases are left as goals. *)
Ltac ensures_step :=
  cbv beta zeta;
  lazymatch goal with
  | |- ensures (bind _ _) _ _ => apply ensures_bind
  | |- ensures (call _ ?c) _ _ =>
      apply (@ensures_call _ _ _ _ _ c); intros ? ? ?; cbv beta iota
  | |- ensures (lift _) _ _ => apply ensures_lift; intros ? ?; cbv beta iota
  | |- ensures (assert_ _ _) _ _ => apply ensures_assert; intros ?; cbv beta iota
  | |- ensures (ret _) _ _ => apply ensures_ret; cbv beta iota
  | |- ensures (raise _) _ _ => apply ensures_raise; cbv beta iota
  | |- ensures (if ?b then _ else _) _ _ => destruct b eqn:?
  | |- ensures (match ?x with (_, _) => _ end) _ _ => destruct x
  end.

(** Inversion of a run of [call]; the call is read off the hypothesis. *)
Tactic Notation "call_returned" hyp(H) "as" simple_intropattern(pat) :=
  match type of H with
  | call _ ?c _ = _ => apply (@call_inr _ _ _ _ _ c) in H as pat
  end.

(** ** Views: indexing, slicing and expanding *)

Section ViewFacts.

Variable scalar : Type.
Implicit Types t : Tensor scalar.

Lemma list_eqb_nat_eq (a b : list nat) : list_eqb Nat.eqb a b = true <-> a = b.
Proof.
  revert b. induction a as [|x a IH]; intros [|y b]; simpl;
    try (split; [discriminate | discriminate]); try (split; reflexivity).
  rewrite andb_true_iff, Nat.eqb_eq, IH. split.
  - intros [-> ->]. reflexivity.
  - intros H. injection H as -> ->. split; reflexivity.
Qed.

Lemma list_eqb_Z_eq (a b : list Z) : list_eqb Z.eqb a b = true <-> a = b.
Proof.
  revert b. induction a as [|x a IH]; intros [|y b]; simpl;
    try (split; [discriminate | discriminate]); try (split; reflexivity).
  rewrite andb_true_iff, Z.eqb_eq, IH. split.
  - intros [-> ->]. reflexivity.
  - intros H. injection H as -> ->. split; reflexivity.
Qed.

Lemma tensor_getitem_item t i ti idx :
  tensor_getitem t i = inr ti -> item ti idx = item t (i :: idx).
Proof.
  unfold tensor_getitem, item. destruct (dims t) as [|[size st] ds] eqn:E;
    [discriminate|].
  destruct (i <? size) eqn:L; [|discriminate].
  intros H. injection H as <-. simpl. rewrite L.
  destruct (flat_index ds idx); [|reflexivity].
  f_equal. lia.
Qed.

(** [t[1:]] drops the first entry along the first dimension. *)
Lemma tensor_slice_from_1_item t t1 i idx :
  tensor_slice_from t 1 = inr t1 -> item t1 (i :: idx) = item t (S i :: idx).
Proof.
  unfold tensor_slice_from, item. destruct (dims t) as [|[size st] ds] eqn:E;
    [discriminate|].
  intros H. injection H as <-. destruct size as [|size]; [reflexivity|].
  cbn [storage storage_offset dims flat_index Nat.min].
  replace (S size - 1) with size by lia.
  change (S i <? S size) with (i <? size).
  destruct (i <? size); [|reflexivity].
  destruct (flat_index ds idx); [|reflexivity].
  f_equal. lia.
Qed.

Lemma tensor_slice_from_1_shape t t1 :
  tensor_slice_from t 1 = inr t1 ->
  exists T rest, shape t = T :: rest /\ shape t1 = (T - 1) :: rest.
Proof.
  unfold tensor_slice_from, shape. destruct (dims t) as [|[size st] ds] eqn:E;
    [discriminate|].
  intros H. injection H as <-. simpl. exists size, (map fst ds).
  split; reflexivity.
Qed.

(** [cov[None, :, :].expand((N, d, d))] on a [(d, d)] matrix: N copies. *)
Lemma expand_covariance (cov : Tensor scalar) (N d : nat) :
  shape cov = [d; d] ->
  exists unsqueezed expanded,
    tensor_none_colon_colon cov = inr unsqueezed
    /\ tensor_expand unsqueezed [N; d; d] = inr expanded
    /\ shape expanded = [N; d; d]
    /\ forall n i j, n < N -> item expanded [n; i; j] = item cov [i; j].
Proof.
  destruct cov as [sto off ds]. unfold shape. simpl.
  destruct ds as [|[a s0] [|[b s1] [|? ?]]]; simpl; try discriminate.
  intros H. injection H as -> ->.
  unfold tensor_none_colon_colon. simpl.
  eexists. exists (mkTensor sto off [(N, if N =? 1 then d * s0 else 0);
                                     (d, s0); (d, s1)]).
  split; [reflexivity|].
  unfold tensor_expand, ndim. cbn [dims length Nat.sub Nat.ltb Nat.leb skipn firstn
                                   map app expand_dims storage storage_offset].
  rewrite Nat.eqb_refl.
  destruct (Nat.eqb_spec N 1) as [->|NE].
  - split; [reflexivity|]. split; [reflexivity|].
    intros n i j Hn. unfold item. simpl.
    assert (n = 0) as -> by lia. simpl.
    destruct (i <? d); [|reflexivity]. destruct (j <? d); reflexivity.
  - destruct (Nat.eqb_spec 1 N) as [E|_]; [congruence|].
    split; [reflexivity|]. split; [reflexivity|].
    intros n i j Hn. unfold item. simpl.
    apply Nat.ltb_lt in Hn. rewrite Hn.
    destruct (i <? d); [|reflexivity]. destruct (j <? d); [|reflexivity].
    f_equal. lia.
Qed.

(** What [SliceWrapper.map] does to each value. *)
Lemma map_values_inr (f : Tensor scalar -> PyErr + Tensor scalar) kvs kvs' :
  map_values f kvs = inr kvs' ->
  Forall2 (fun kv kv' => fst kv' = fst kv /\ f (snd kv) = inr (snd kv')) kvs kvs'.
Proof.
  revert kvs'. induction kvs as [|[k v] kvs IH]; simpl; intros kvs' H.
  - injection H as <-. constructor.
  - destruct (f v) as [e|v'] eqn:Ev; [discriminate|].
    destruct (map_values f kvs) as [e|r] eqn:Er; [discriminate|].
    injection H as <-. constructor; [split; [reflexivity | exact Ev]|].
    apply IH. reflexivity.
Qed.

Lemma SliceWrapper_map_values (f : Tensor scalar -> PyErr + Tensor scalar)
  data data' :
  SliceWrapper_map f data = inr data' ->
  Forall2 (fun v v' => f v = inr v') (dict_values data) (dict_values data').
Proof.
  destruct data as [t|[k v] rest]; simpl.
  - destruct (f t) as [e|t'] eqn:E; [discriminate|].
    intros H. injection H as <-. simpl. constructor; [exact E | constructor].
  - destruct (f v) as [e|v'] eqn:Ev; [discriminate|].
    destruct (map_values f rest) as [e|rest'] eqn:Er; [discriminate|].
    intros H. injection H as <-. simpl. constructor; [exact Ev|].
    apply map_values_inr in Er. induction Er as [|x y l l' [_ Hxy] _ IH];
      simpl; constructor; assumption.
Qed.

End ViewFacts.

(** ** The axis swap composed with indexing and slicing *)

Section SwapFacts.

Variable scalar : Type.
Implicit Types t : Tensor scalar.

(** X1. The axis swap is defined exactly on tensors with at least two
    dimensions, where it gives a view on the same storage with as many
    dimensions; on a scalar or a vector it raises [IndexError]. *)
Theorem swap_batch_sequence_axes_defined t :
  match _swap_batch_sequence_axes t with
  | inr t' =>
      2 <= ndim t
      /\ storage t' = storage t
      /\ storage_offset t' = storage_offset t
      /\ ndim t' = ndim t
  | inl e => e = IndexError /\ ndim t < 2
  end.
Proof.
  unfold _swap_batch_sequence_axes, torch_transpose, swap_entries, ndim.
  destruct (dims t) as [|d0 [|d1 ds]]; simpl.
  - split; [reflexivity | lia].
  - split; [reflexivity | lia].
  - repeat split. lia.
Qed.

Lemma swap_batch_sequence_axes_inr t t' :
  _swap_batch_sequence_axes t = inr t' ->
  exists d0 d1 ds,
    dims t = d0 :: d1 :: ds
    /\ t' = mkTensor (storage t) (storage_offset t) (d1 :: d0 :: ds).
Proof.
  unfold _swap_batch_sequence_axes, torch_transpose, swap_entries.
  destruct (dims t) as [|d0 [|d1 ds]] eqn:E; simpl; try discriminate.
  intros H. injection H as <-. exists d0, d1, ds. split; reflexivity.
Qed.


Lemma common_prefix_leading (a b : list nat) T N :
  firstn 2 (common_prefix a b) = [T; N]
  <-> firstn 2 a = [T; N] /\ firstn 2 b = [T; N].
Proof.
  destruct a as [|a0 [|a1 a]]; destruct b as [|b0 [|b1 b]]; simpl;
    repeat match goal with
           | |- context [?x =? ?y] =>
               destruct (Nat.eqb_spec x y); subst; simpl
           end;
    (split; [try discriminate | try (intros [? ?]; congruence)]).
  intros H. split; exact H.
Qed.

Lemma fold_common_prefix_leading (rest : list (string * Tensor scalar))
  (acc : list nat) T N :
  firstn 2 (fold_left (fun acc kv => common_prefix acc (shape (snd kv)))
                      rest acc) = [T; N]
  <-> firstn 2 acc = [T; N]
      /\ Forall (fun v => firstn 2 (shape v) = [T; N]) (map snd rest).
Proof.
  revert acc. induction rest as [|[k v] rest IH]; intros acc;
    cbn [fold_left map snd].
  - split; [intros H; split; [exact H | constructor] | intros [H _]; exact H].
  - rewrite IH, common_prefix_leading. split.
    + intros [[Ha Hv] Hr]. split; [exact Ha|]. constructor; assumption.
    + intros [Ha Hr]. inversion Hr; subst. repeat split; assumption.
Qed.

Lemma leading_shape (data : TensorOrDict scalar) T N :
  firstn 2 (SliceWrapper_shape data) = [T; N]
  <-> Forall (fun v => firstn 2 (shape v) = [T; N]) (dict_values data).
Proof.
  destruct data as [t|[k v] rest]; cbn [SliceWrapper_shape dict_values snd].
  - split; [intros H; constructor; [exact H | constructor]|].
    intros H. inversion H; subst. assumption.
  - rewrite fold_common_prefix_leading. split.
    + intros [Hv Hr]. constructor; assumption.
    + intros H. inversion H; subst. split; assumption.
Qed.


End SwapFacts.

(** ** The loop body *)

Section TrainFilterFacts.

Variables (scalar number ExtExn World : Type).
Variable number_zero : number.
Variable number_add : number -> number -> number.
Variable number_div : number -> nat -> number.
Variable ext : forall c : Call scalar number, World -> (ExtExn + Answer c) * World.
Variable filter_model : FilterModel.
Variable dataloader : DataLoader scalar.
Variable initial_covariance : Tensor scalar.
Variable log_interval : Z.
Variable measurement_initialize : bool.
Variable optimizer_name : string.

Local Abbreviation St := (St scalar number ExtExn World).
Local Abbreviation Event := (Event scalar number ExtExn).
Local Abbreviation swap := (@_swap_batch_sequence_axes scalar).
Local Abbreviation body :=
  (train_filter_batch number_add ext filter_model dataloader initial_covariance
                      log_interval measurement_initialize optimizer_name).
Local Abbreviation populate :=
  (populate_initial_belief ext filter_model initial_covariance
                           measurement_initialize).
Local Abbreviation initialization :=
  (@belief_initialization scalar number ExtExn filter_model initial_covariance
                          measurement_initialize).
Local Abbreviation logged := (@logging_events scalar number ExtExn log_interval).

Lemma shape_checks_inr batch_idx sl obs ctrl (st : St) T N d st' :
  shape_checks filter_model dataloader batch_idx sl obs ctrl st
  = (inr (T, N, d), st') ->
  st' = st
  /\ shape sl = [T; N; d]
  /\ d = state_dim filter_model
  /\ firstn 2 (SliceWrapper_shape obs) = [T; N]
  /\ firstn 2 (SliceWrapper_shape ctrl) = [T; N]
  /\ (batch_idx = 0 -> batch_size dataloader = Some N).
Proof.
  unfold shape_checks. intros H.
  apply bind_inr in H as ([[T0 N0] d0] & st1 & H1 & H).
  apply lift_inr in H1 as [U ->].
  apply bind_inr in H as ([] & st1 & H1 & H).
  apply assert_inr in H1 as [A1 ->].
  apply bind_inr in H as ([] & st1 & H1 & H).
  apply assert_inr in H1 as [A2 ->].
  apply bind_inr in H as ([] & st1 & H1 & H).
  apply assert_inr in H1 as [A3 ->].
  apply bind_inr in H as ([] & st1 & H1 & H).
  apply assert_inr in H1 as [A4 ->].
  unfold ret in H. injection H as -> -> -> <-.
  split; [reflexivity|]. split.
  - unfold unpack3 in U.
    destruct (shape sl) as [|a [|b' [|c' [|? ?]]]]; try discriminate.
    injection U as -> -> ->. reflexivity.
  - split; [apply Nat.eqb_eq; exact A1|].
    split; [apply list_eqb_nat_eq; exact A2|].
    split; [apply list_eqb_nat_eq; exact A3|].
    intros ->. simpl in A4. unfold eq_batch_size in A4.
    destruct (batch_size dataloader) as [n|]; [|discriminate].
    apply Nat.eqb_eq in A4. subst. reflexivity.
Qed.

Lemma populate_inr N d sl obs (st : St) u st' :
  populate N d sl obs st = (inr u, st') ->
  exists evs w,
    st' = mkSt w (trace st ++ evs) /\ initialization N d sl obs evs.
Proof.
  unfold populate_initial_belief, belief_initialization.
  destruct measurement_initialize; intros H.
  - apply bind_inr in H as ([] & st1 & H1 & H).
    apply assert_inr in H1 as [A ->].
    apply bind_inr in H as (obs0 & st1 & H1 & H).
    apply lift_inr in H1 as [G ->].
    call_returned H as (w & E & ->). destruct u.
    eexists _, w. split; [reflexivity|].
    split; [exact A|]. exists obs0. split; [exact G | reflexivity].
  - apply bind_inr in H as (unsq & st1 & H1 & H).
    apply lift_inr in H1 as [G1 ->].
    apply bind_inr in H as (cov & st1 & H1 & H).
    apply lift_inr in H1 as [G2 ->].
    apply bind_inr in H as (loc & st1 & H1 & H).
    apply lift_inr in H1 as [G3 ->].
    apply bind_inr in H as (mean & st1 & H1 & H).
    call_returned H1 as (w1 & E1 & ->).
    call_returned H as (w & E & ->). destruct u. simpl.
    eexists _, w. split; [rewrite <- app_assoc; reflexivity|].
    exists unsq, cov, loc, mean. repeat split; assumption.
Qed.

Lemma logging_inr batch_idx loss (st : St) u st' :
  logging ext log_interval batch_idx loss st = (inr u, st') ->
  log_interval <> 0%Z
  /\ exists w,
       st' = mkSt w (trace st ++ logged batch_idx loss).
Proof.
  unfold logging, logging_events.
  destruct (Z.eqb_spec log_interval 0) as [E|NE]; [discriminate|].
  intros H. split; [exact NE|].
  destruct (Z.of_nat batch_idx mod log_interval =? 0)%Z.
  - call_returned H as (w & E & ->). destruct u. exists w. reflexivity.
  - unfold ret in H. injection H as _ <-. exists (world st).
    rewrite app_nil_r. destruct st; reflexivity.
Qed.

(** A minibatch on which the loop body returns: the tensors it works on, the
    checks they passed, and the calls it made, in order. *)
Lemma train_filter_batch_inr batch_idx batch_data epoch_loss (st : St)
  epoch_loss' st' :
  body batch_idx batch_data epoch_loss st = (inr epoch_loss', st') ->
  exists batch_gpu sl obs ctrl T N d init obs1 ctrl1 pred sl1 loss loss_np,
    swap (states batch_gpu) = inr sl
    /\ SliceWrapper_map swap (observations batch_gpu) = inr obs
    /\ SliceWrapper_map swap (controls batch_gpu) = inr ctrl
    /\ shape sl = [T; N; d]
    /\ d = state_dim filter_model
    /\ firstn 2 (SliceWrapper_shape obs) = [T; N]
    /\ firstn 2 (SliceWrapper_shape ctrl) = [T; N]
    /\ (batch_idx = 0 -> batch_size dataloader = Some N)
    /\ initialization N d sl obs init
    /\ SliceWrapper_slice_from obs 1 = inr obs1
    /\ SliceWrapper_slice_from ctrl 1 = inr ctrl1
    /\ map Z.of_nat (shape pred)
       = [Z.of_nat T - 1; Z.of_nat N; Z.of_nat d]%Z
    /\ tensor_slice_from sl 1 = inr sl1
    /\ log_interval <> 0%Z
    /\ epoch_loss' = number_add epoch_loss loss_np
    /\ trace st'
       = trace st
         ++ [Ev (to_device batch_data) (inr batch_gpu)]
         ++ init
         ++ [Ev (forward_loop obs1 ctrl1) (inr pred);
             Ev (loss_function pred sl1) (inr loss);
             Ev (minimize loss optimizer_name) (inr tt);
             Ev (to_numpy loss) (inr loss_np)]
         ++ logged batch_idx loss.
Proof.
  unfold train_filter_batch. intros H.
  apply bind_inr in H as (bg & st1 & H1 & H).
  call_returned H1 as (w1 & E1 & ->).
  apply bind_inr in H as (sl & st1 & H1 & H).
  apply lift_inr in H1 as [S1 ->].
  apply bind_inr in H as (obs & st1 & H1 & H).
  apply lift_inr in H1 as [S2 ->].
  apply bind_inr in H as (ctrl & st1 & H1 & H).
  apply lift_inr in H1 as [S3 ->].
  apply bind_inr in H as ([[T N] d] & st1 & H1 & H).
  apply shape_checks_inr in H1 as (-> & C1 & C2 & C3 & C4 & C5).
  apply bind_inr in H as ([] & st1 & H1 & H).
  apply populate_inr in H1 as (init & w2 & -> & I).
  apply bind_inr in H as (obs1 & st1 & H1 & H).
  apply lift_inr in H1 as [L1 ->].
  apply bind_inr in H as (ctrl1 & st1 & H1 & H).
  apply lift_inr in H1 as [L2 ->].
  apply bind_inr in H as (pred & st1 & H1 & H).
  call_returned H1 as (w3 & E3 & ->).
  apply bind_inr in H as ([] & st1 & H1 & H).
  apply assert_inr in H1 as [A ->].
  apply bind_inr in H as (sl1 & st1 & H1 & H).
  apply lift_inr in H1 as [L3 ->].
  apply bind_inr in H as (loss & st1 & H1 & H).
  call_returned H1 as (w4 & E4 & ->).
  apply bind_inr in H as ([] & st1 & H1 & H).
  call_returned H1 as (w5 & E5 & ->).
  apply bind_inr in H as (loss_np & st1 & H1 & H).
  call_returned H1 as (w6 & E6 & ->).
  apply bind_inr in H as ([] & st1 & H1 & H).
  apply logging_inr in H1 as (NZ & w7 & ->).
  unfold ret in H. injection H as <- <-.
  exists bg, sl, obs, ctrl, T, N, d, init, obs1, ctrl1, pred, sl1, loss, loss_np.
  repeat (split; [assumption|]).
  split; [apply list_eqb_Z_eq; exact A|].
  repeat (split; [assumption|]).
  split; [reflexivity|].
  simpl. repeat rewrite <- app_assoc. reflexivity.
Qed.

Lemma gradient_steps_app (evs1 evs2 : list Event) :
  gradient_steps (evs1 ++ evs2) = gradient_steps evs1 + gradient_steps evs2.
Proof.
  unfold gradient_steps. rewrite filter_app, length_app. reflexivity.
Qed.

(** An [AssertionError] of the loop body comes before the gradient step of
    its minibatch. *)
Lemma train_filter_batch_assertion batch_idx batch_data epoch_loss (st : St) :
  forall msg,
    fst (body batch_idx batch_data epoch_loss st) = inl (Py (AssertionError msg)) ->
    exists evs,
      trace (snd (body batch_idx batch_data epoch_loss st)) = trace st ++ evs
      /\ gradient_steps evs = 0.
Proof.
  intros msg.
  change (ensures (body batch_idx batch_data epoch_loss) st
            (fun r st' => r = inl (Py (AssertionError msg)) ->
                          exists evs, trace st' = trace st ++ evs
                                      /\ gradient_steps evs = 0)).
  unfold train_filter_batch, shape_checks, populate_initial_belief, logging.
  repeat ensures_step.
  all: cbn [trace]; intros R; try discriminate R.
  all: repeat rewrite <- app_assoc.
  all: eexists; split; [reflexivity | reflexivity].
Qed.

(** The loop body, the loop and [train_filter] let every external exception
    through unchanged and swallow none. *)
Ltac transparency :=
  repeat first
    [ apply transparent_bind; [|intros]
    | apply transparent_lift
    | apply transparent_assert
    | apply transparent_ret
    | apply transparent_raise
    | match goal with
      | |- transparent _ (call _ ?c) => exact (@transparent_call _ _ _ _ _ c)
      | |- transparent _ (if ?b then _ else _) => destruct b
      | |- transparent _ (match ?x with (_, _) => _ end) => destruct x
      end ].

Lemma train_filter_batch_transparent batch_idx batch_data epoch_loss :
  transparent ext (body batch_idx batch_data epoch_loss).
Proof.
  unfold train_filter_batch, shape_checks, populate_initial_belief, logging.
  transparency.
Qed.

Lemma train_filter_loop_transparent remaining batch_idx epoch_loss :
  transparent ext
    (train_filter_loop number_add ext filter_model dataloader initial_covariance
       log_interval measurement_initialize optimizer_name
       batch_idx remaining epoch_loss).
Proof.
  revert batch_idx epoch_loss.
  induction remaining as [|b bs IH]; intros batch_idx epoch_loss; simpl.
  - apply transparent_ret.
  - apply transparent_bind; [apply train_filter_batch_transparent|].
    intros x. apply IH.
Qed.

Lemma train_filter_transparent :
  transparent ext
    (train_filter number_zero number_add number_div ext filter_model dataloader
       initial_covariance log_interval measurement_initialize optimizer_name).
Proof.
  unfold train_filter.
  repeat (apply transparent_bind; [try apply transparent_assert|intros]).
  - apply train_filter_loop_transparent.
  - transparency.
Qed.

(** ** The loop and the whole function *)

Local Abbreviation loop :=
  (train_filter_loop number_add ext filter_model dataloader initial_covariance
                     log_interval measurement_initialize optimizer_name).
Local Abbreviation run_train_filter :=
  (train_filter number_zero number_add number_div ext filter_model dataloader
                initial_covariance log_interval measurement_initialize
                optimizer_name).

Lemma transparent_grows {X : Type} (m : M scalar number ExtExn World X) st r st' :
  transparent ext m -> m st = (r, st') ->
  exists evs, trace st' = trace st ++ evs.
Proof.
  intros Tm E. destruct (Tm st) as (evs & Ht & _). rewrite E in Ht.
  exists evs. exact Ht.
Qed.

(** A loop that returns has run the body on each of its minibatches. *)
Lemma train_filter_loop_split bs1 b bs2 batch_idx epoch_loss (st : St) acc' st' :
  loop batch_idx (bs1 ++ b :: bs2) epoch_loss st = (inr acc', st') ->
  exists acc1 st1 acc2 st2,
    loop batch_idx bs1 epoch_loss st = (inr acc1, st1)
    /\ body (batch_idx + length bs1) b acc1 st1 = (inr acc2, st2)
    /\ loop (S (batch_idx + length bs1)) bs2 acc2 st2 = (inr acc', st').
Proof.
  revert batch_idx epoch_loss st.
  induction bs1 as [|b1 bs1 IH]; intros batch_idx epoch_loss st H; simpl in H.
  - apply bind_inr in H as (acc2 & st2 & H1 & H).
    exists epoch_loss, st, acc2, st2. simpl. rewrite Nat.add_0_r.
    repeat split; assumption.
  - apply bind_inr in H as (acc0 & st0 & H1 & H).
    apply IH in H as (acc1 & st1 & acc2 & st2 & L1 & B & L2).
    exists acc1, st1, acc2, st2. simpl.
    rewrite (bind_step _ H1).
    replace (batch_idx + S (length bs1)) with (S batch_idx + length bs1) by lia.
    repeat split; assumption.
Qed.

(** A run of [train_filter] that returns passed the three entry assertions,
    ran the loop to its end over at least one minibatch, and printed. *)
Lemma train_filter_inr (st : St) u st' :
  run_train_filter st = (inr u, st') ->
  dataset_is_SubsequenceDataset dataloader = true
  /\ shape initial_covariance
     = [state_dim filter_model; state_dim filter_model]
  /\ training filter_model = true
  /\ batches dataloader <> []
  /\ exists acc st1 w,
       loop 0 (batches dataloader) number_zero st = (inr acc, st1)
       /\ st' = mkSt w
                  (trace st1
                   ++ [Ev (print "(train_filter) Epoch training loss: "%string
                                 (number_div acc (length (batches dataloader))))
                          (inr tt)]).
Proof.
  unfold train_filter. intros H.
  apply bind_inr in H as ([] & st1 & H1 & H).
  apply assert_inr in H1 as [A1 ->].
  apply bind_inr in H as ([] & st1 & H1 & H).
  apply assert_inr in H1 as [A2 ->].
  apply bind_inr in H as ([] & st1 & H1 & H).
  apply assert_inr in H1 as [A3 ->].
  apply bind_inr in H as (acc & st1 & H1 & H).
  destruct (Nat.eqb_spec (length (batches dataloader)) 0) as [E|NE];
    [discriminate|].
  call_returned H as (w & E & ->). destruct u.
  split; [exact A1|]. split; [apply list_eqb_nat_eq; exact A2|].
  split; [exact A3|]. split.
  - intros E0. rewrite E0 in NE. apply NE. reflexivity.
  - exists acc, st1, w. split; [exact H1 | reflexivity].
Qed.

(** In a run of [train_filter] that returns, the loop body has returned on
    every minibatch of the dataloader, at its index; what it appended to the
    trace is part of the final trace. *)
Lemma train_filter_minibatch (st : St) u st' i batch_data :
  run_train_filter st = (inr u, st') ->
  nth_error (batches dataloader) i = Some batch_data ->
  exists acc st1 acc2 st2 before after,
    body i batch_data acc st1 = (inr acc2, st2)
    /\ trace st1 = trace st ++ before
    /\ trace st' = trace st2 ++ after.
Proof.
  intros H Hi.
  apply train_filter_inr in H as (_ & _ & _ & _ & acc & st3 & w & L & ->).
  apply nth_error_split in Hi as (bs1 & bs2 & Ebs & Hlen).
  rewrite Ebs in L.
  apply train_filter_loop_split in L as (acc1 & st1 & acc2 & st2 & L1 & B & L2).
  simpl in B. rewrite Hlen in B.
  destruct (@transparent_grows _ _ _ _ _
              (train_filter_loop_transparent _ _ _) L1) as (before & Hb).
  destruct (@transparent_grows _ _ _ _ _
              (train_filter_loop_transparent _ _ _) L2) as (rest & Hr).
  exists acc1, st1, acc2, st2, before. eexists.
  split; [exact B|]. split; [exact Hb|].
  simpl. rewrite Hr, <- app_assoc. reflexivity.
Qed.

Lemma numpy_losses_app (evs1 evs2 : list Event) :
  numpy_losses (evs1 ++ evs2) = numpy_losses evs1 ++ numpy_losses evs2.
Proof.
  induction evs1 as [|ev evs1 IH]; simpl; [reflexivity|].
  destruct (numpy_loss ev); rewrite IH; reflexivity.
Qed.

Lemma initialization_quiet N d sl obs init :
  initialization N d sl obs init ->
  numpy_losses init = [] /\ gradient_steps init = 0
  /\ filter (@is_log_scalar scalar number ExtExn) init = [].
Proof.
  unfold belief_initialization. destruct measurement_initialize.
  - intros (_ & obs0 & _ & ->). repeat split.
  - intros (unsq & cov & loc & mean & _ & _ & _ & ->). repeat split.
Qed.

Lemma logged_quiet batch_idx loss :
  numpy_losses (logged batch_idx loss) = []
  /\ gradient_steps (logged batch_idx loss) = 0.
Proof.
  unfold logging_events.
  destruct (Z.of_nat batch_idx mod log_interval =? 0)%Z; split; reflexivity.
Qed.

(** A loop that returns has taken one gradient step and added one loss per
    minibatch, summing from the left. *)
Lemma train_filter_loop_inr remaining batch_idx epoch_loss (st : St) acc' st' :
  loop batch_idx remaining epoch_loss st = (inr acc', st') ->
  exists evs,
    trace st' = trace st ++ evs
    /\ length (numpy_losses evs) = length remaining
    /\ acc' = fold_left number_add (numpy_losses evs) epoch_loss
    /\ gradient_steps evs = length remaining.
Proof.
  revert batch_idx epoch_loss st.
  induction remaining as [|b bs IH]; intros batch_idx epoch_loss st H; simpl in H.
  - unfold ret in H. injection H as <- <-. exists [].
    rewrite app_nil_r. repeat split.
  - apply bind_inr in H as (acc1 & st1 & B & H).
    apply IH in H as (evs2 & Ht & Hl & Hacc & Hg).
    apply train_filter_batch_inr in B
      as (bg & sl & obs & ctrl & T & N & d & init & obs1 & ctrl1 & pred & sl1
          & loss & loss_np & _ & _ & _ & _ & _ & _ & _ & _ & I & _ & _ & _ & _
          & _ & -> & Hb).
    apply initialization_quiet in I as (In & Ig & _).
    destruct (logged_quiet batch_idx loss) as (Ln & Lg).
    eexists. split; [rewrite Ht, Hb, <- app_assoc; reflexivity|].
    repeat rewrite numpy_losses_app. repeat rewrite gradient_steps_app.
    rewrite In, Ln, Ig, Lg. simpl. rewrite Hl, Hg.
    repeat split. exact Hacc.
Qed.

(** C1. In a run of [train_filter] that returns, every minibatch of the
    dataloader has been processed by these steps, in this order: the tensors
    moved to the device are swapped to time-major; the belief is initialized
    (by the virtual sensor or from [initial_covariance]); [forward_loop] runs
    on the trajectory; the loss function is applied to its predictions and
    the ground-truth states; [buddy.minimize] takes the gradient step. *)
Theorem train_filter_steps_in_order (st : St) st' i batch_data :
  run_train_filter st = (inr tt, st') ->
  nth_error (batches dataloader) i = Some batch_data ->
  exists batch_gpu sl obs ctrl N d init obs1 ctrl1 pred sl1 loss before after,
    swap (states batch_gpu) = inr sl
    /\ SliceWrapper_map swap (observations batch_gpu) = inr obs
    /\ SliceWrapper_map swap (controls batch_gpu) = inr ctrl
    /\ initialization N d sl obs init
    /\ SliceWrapper_slice_from obs 1 = inr obs1
    /\ SliceWrapper_slice_from ctrl 1 = inr ctrl1
    /\ tensor_slice_from sl 1 = inr sl1
    /\ trace st'
       = before
         ++ [Ev (to_device batch_data) (inr batch_gpu)]
         ++ init
         ++ [Ev (forward_loop obs1 ctrl1) (inr pred);
             Ev (loss_function pred sl1) (inr loss);
             Ev (minimize loss optimizer_name) (inr tt)]
         ++ after.
Proof.
  intros H Hi.
  eapply train_filter_minibatch in H
    as (acc & st1 & acc2 & st2 & before & after & B & Hb & Ha); [|exact Hi].
  apply train_filter_batch_inr in B
    as (bg & sl & obs & ctrl & T & N & d & init & obs1 & ctrl1 & pred & sl1
        & loss & loss_np & S1 & S2 & S3 & _ & _ & _ & _ & _ & I & L1 & L2 & _
        & L3 & _ & _ & Ht).
  exists bg, sl, obs, ctrl, N, d, init, obs1, ctrl1, pred, sl1, loss.
  exists (trace st1).
  exists ([Ev (to_numpy loss) (inr loss_np)] ++ logged i loss ++ after).
  repeat (split; [assumption|]).
  rewrite Ha, Ht. repeat rewrite <- app_assoc. reflexivity.
Qed.

(** C10. When [train_filter] returns, what it printed last is the sum of the
    per-minibatch loss values, added from the left starting at 0.0, divided by
    the number of minibatches of the dataloader, and there was one loss value
    per minibatch; with a dataloader that yields no minibatch the function
    does not return and prints nothing: it raises before any external call,
    and what it raises is [ZeroDivisionError] once the entry assertions
    hold. *)
Theorem train_filter_epoch_loss (st : St) :
  (forall st',
     run_train_filter st = (inr tt, st') ->
     batches dataloader <> []
     /\ exists evs,
          trace st'
          = trace st ++ evs
            ++ [Ev (print "(train_filter) Epoch training loss: "%string
                          (number_div
                             (fold_left number_add (numpy_losses evs)
                                        number_zero)
                             (length (batches dataloader))))
                   (inr tt)]
          /\ length (numpy_losses evs) = length (batches dataloader))
  /\ (batches dataloader = [] ->
      exists e,
        run_train_filter st = (inl (Py e), st)
        /\ (dataset_is_SubsequenceDataset dataloader = true ->
            shape initial_covariance
            = [state_dim filter_model; state_dim filter_model] ->
            training filter_model = true ->
            e = ZeroDivisionError)).
Proof.
  split.
  - intros st' H.
    apply train_filter_inr in H as (_ & _ & _ & NE & acc & st1 & w & L & ->).
    split; [exact NE|].
    apply train_filter_loop_inr in L as (evs & Ht & Hl & -> & _).
    exists evs. split; [|exact Hl].
    simpl. rewrite Ht, <- app_assoc. reflexivity.
  - intros E. unfold train_filter. rewrite E. simpl.
    unfold bind, assert_, raise, ret.
    destruct (dataset_is_SubsequenceDataset dataloader);
      [|eexists; split; [reflexivity | discriminate]].
    destruct (list_eqb Nat.eqb (shape initial_covariance)
                [state_dim filter_model; state_dim filter_model]) eqn:C.
    + destruct (training filter_model);
        [|eexists; split; [reflexivity | discriminate]].
      eexists. split; reflexivity.
    + eexists. split; [reflexivity|].
      intros _ Hs _. apply list_eqb_nat_eq in Hs. congruence.
Qed.

Lemma sliced_from_1 (data data1 : TensorOrDict scalar) :
  SliceWrapper_slice_from data 1 = inr data1 ->
  Forall2 (fun v v1 => forall t idx, item v1 (t :: idx) = item v (S t :: idx))
          (dict_values data) (dict_values data1).
Proof.
  intros H. apply SliceWrapper_map_values in H.
  induction H as [|v v1 l l1 Hv _ IH]; constructor; [|exact IH].
  intros t idx. apply tensor_slice_from_1_item. exact Hv.
Qed.

Lemma selected_0 (data data0 : TensorOrDict scalar) :
  SliceWrapper_getitem data 0 = inr data0 ->
  Forall2 (fun v v0 => forall idx, item v0 idx = item v (0 :: idx))
          (dict_values data) (dict_values data0).
Proof.
  intros H. apply SliceWrapper_map_values in H.
  induction H as [|v v0 l l0 Hv _ IH]; constructor; [|exact IH].
  intros idx. apply tensor_getitem_item. exact Hv.
Qed.

Lemma prediction_shape (pred : Tensor scalar) T N d :
  map Z.of_nat (shape pred) = [Z.of_nat T - 1; Z.of_nat N; Z.of_nat d]%Z ->
  shape pred = [T - 1; N; d] /\ 1 <= T.
Proof.
  destruct (shape pred) as [|p0 [|p1 [|p2 [|? ?]]]]; simpl; try discriminate.
  intros H. injection H as H0 H1 H2.
  apply Nat2Z.inj in H1, H2. subst.
  split; [f_equal; lia | lia].
Qed.

(** C5. On every minibatch on which the loop body returns, the loss function
    is applied to the output of [forward_loop] and to [states_labels[1:]],
    the ground-truth states of timesteps 1 to T-1 (timestep 0 is left out),
    and [forward_loop] was called on the observations and controls sliced
    from timestep 1 onward. *)
Theorem train_filter_batch_loss batch_idx batch_data epoch_loss (st : St)
  epoch_loss' st' :
  body batch_idx batch_data epoch_loss st = (inr epoch_loss', st') ->
  exists batch_gpu sl obs ctrl T N d obs1 ctrl1 pred sl1 loss before after,
    swap (states batch_gpu) = inr sl
    /\ SliceWrapper_map swap (observations batch_gpu) = inr obs
    /\ SliceWrapper_map swap (controls batch_gpu) = inr ctrl
    /\ shape sl = [T; N; d]
    /\ 1 <= T
    /\ SliceWrapper_slice_from obs 1 = inr obs1
    /\ SliceWrapper_slice_from ctrl 1 = inr ctrl1
    /\ tensor_slice_from sl 1 = inr sl1
    /\ Forall2 (fun v v1 =>
                  forall t idx, item v1 (t :: idx) = item v (S t :: idx))
               (dict_values obs) (dict_values obs1)
    /\ Forall2 (fun v v1 =>
                  forall t idx, item v1 (t :: idx) = item v (S t :: idx))
               (dict_values ctrl) (dict_values ctrl1)
    /\ shape sl1 = [T - 1; N; d]
    /\ (forall t n k, item sl1 [t; n; k] = item sl [S t; n; k])
    /\ shape pred = [T - 1; N; d]
    /\ trace st'
       = trace st ++ before
         ++ [Ev (forward_loop obs1 ctrl1) (inr pred);
             Ev (loss_function pred sl1) (inr loss)]
         ++ after.
Proof.
  intros H.
  apply train_filter_batch_inr in H
    as (bg & sl & obs & ctrl & T & N & d & init & obs1 & ctrl1 & pred & sl1
        & loss & loss_np & S1 & S2 & S3 & Hs & _ & _ & _ & _ & I & L1 & L2 & P
        & L3 & _ & _ & Ht).
  apply prediction_shape in P as [P HT].
  exists bg, sl, obs, ctrl, T, N, d, obs1, ctrl1, pred, sl1, loss.
  exists ([Ev (to_device batch_data) (inr bg)] ++ init).
  exists ([Ev (minimize loss optimizer_name) (inr tt);
           Ev (to_numpy loss) (inr loss_np)] ++ logged batch_idx loss).
  repeat (split; [assumption|]).
  split; [apply sliced_from_1; exact L1|].
  split; [apply sliced_from_1; exact L2|].
  split.
  { destruct (tensor_slice_from_1_shape _ L3) as (T' & rest & E & E1).
    rewrite Hs in E. injection E as <- <-. exact E1. }
  split; [intros t n k; apply tensor_slice_from_1_item; exact L3|].
  split; [exact P|].
  rewrite Ht. repeat rewrite <- app_assoc. reflexivity.
Qed.

(** C7. On every minibatch on which the loop body returns, the calls it made
    contain exactly one [buddy.minimize], on the loss the loss function just
    returned and with the configured [optimizer_name]; and the world outside
    changed through those calls only. *)
Theorem train_filter_batch_gradient_step batch_idx batch_data epoch_loss
  (st : St) epoch_loss' st' :
  body batch_idx batch_data epoch_loss st = (inr epoch_loss', st') ->
  exists evs pred sl1 loss before after,
    trace st' = trace st ++ evs
    /\ interaction ext (world st) evs (world st')
    /\ evs = before
             ++ [Ev (loss_function pred sl1) (inr loss);
                 Ev (minimize loss optimizer_name) (inr tt)]
             ++ after
    /\ gradient_steps before = 0
    /\ gradient_steps after = 0
    /\ gradient_steps evs = 1.
Proof.
  intros H.
  destruct (train_filter_batch_transparent batch_idx batch_data epoch_loss st)
    as (evs & Ht & Hi & _).
  rewrite H in Ht, Hi. simpl in Ht, Hi.
  apply train_filter_batch_inr in H
    as (bg & sl & obs & ctrl & T & N & d & init & obs1 & ctrl1 & pred & sl1
        & loss & loss_np & _ & _ & _ & _ & _ & _ & _ & _ & I & _ & _ & _ & _
        & _ & _ & Ht').
  rewrite Ht' in Ht. apply app_inv_head in Ht. subst evs.
  apply initialization_quiet in I as (_ & Ig & _).
  destruct (logged_quiet batch_idx loss) as (_ & Lg).
  eexists. exists pred, sl1, loss.
  exists ([Ev (to_device batch_data) (inr bg)] ++ init
          ++ [Ev (forward_loop obs1 ctrl1) (inr pred)]).
  exists ([Ev (to_numpy loss) (inr loss_np)] ++ logged batch_idx loss).
  split; [exact Ht'|]. split; [exact Hi|].
  split; [repeat rewrite <- app_assoc; reflexivity|].
  repeat rewrite gradient_steps_app. rewrite Ig, Lg.
  repeat split.
Qed.

(** C6. Belief initialization is a two-way branch.  With
    [measurement_initialize] set, a model that is not a
    [VirtualSensorExtendedKalmanFilter] fails the assertion; otherwise the
    virtual sensor initializes the beliefs from the observations of the first
    timestep.  Without it, the mean is sampled from the Gaussian around
    [states_labels[0]] whose covariance is [initial_covariance] repeated for
    each of the N batch elements, shape (N, state_dim, state_dim), and
    [initialize_beliefs] receives that mean and covariance.  The shape of
    [initial_covariance] is the one the entry assertion of line 49 checks. *)
Theorem train_filter_batch_belief :
  shape initial_covariance = [state_dim filter_model; state_dim filter_model] ->
  (measurement_initialize = true ->
   is_VirtualSensorExtendedKalmanFilter filter_model = false ->
   forall N d sl obs (st : St),
     populate N d sl obs st
     = (inl (Py (AssertionError
                   (Some "Only supported for virtual sensor EKFs!"%string))),
        st))
  /\ (forall batch_idx batch_data epoch_loss (st : St) epoch_loss' st',
        body batch_idx batch_data epoch_loss st = (inr epoch_loss', st') ->
        exists batch_gpu sl obs T N d init after,
          swap (states batch_gpu) = inr sl
          /\ SliceWrapper_map swap (observations batch_gpu) = inr obs
          /\ shape sl = [T; N; d]
          /\ d = state_dim filter_model
          /\ trace st'
             = trace st ++ [Ev (to_device batch_data) (inr batch_gpu)]
               ++ init ++ after
          /\ if measurement_initialize then
               is_VirtualSensorExtendedKalmanFilter filter_model = true
               /\ exists obs0,
                    SliceWrapper_getitem obs 0 = inr obs0
                    /\ Forall2 (fun v v0 =>
                                  forall idx, item v0 idx = item v (0 :: idx))
                               (dict_values obs) (dict_values obs0)
                    /\ init = [Ev (virtual_sensor_initialize_beliefs obs0)
                                  (inr tt)]
             else
               exists covariance loc mean,
                 shape covariance = [N; d; d]
                 /\ (forall n i j,
                       n < N ->
                       item covariance [n; i; j]
                       = item initial_covariance [i; j])
                 /\ tensor_getitem sl 0 = inr loc
                 /\ (forall idx, item loc idx = item sl (0 :: idx))
                 /\ init = [Ev (MultivariateNormal_sample loc covariance)
                               (inr mean);
                            Ev (initialize_beliefs mean covariance) (inr tt)]).
Proof.
  intros Hcov. split.
  - intros Hmi Hekf N d sl obs st. unfold populate_initial_belief.
    rewrite Hmi, Hekf. reflexivity.
  - intros batch_idx batch_data epoch_loss st epoch_loss' st' H.
    apply train_filter_batch_inr in H
      as (bg & sl & obs & ctrl & T & N & d & init & obs1 & ctrl1 & pred & sl1
          & loss & loss_np & S1 & S2 & _ & Hs & Hd & _ & _ & _ & I & _ & _ & _
          & _ & _ & _ & Ht).
    exists bg, sl, obs, T, N, d, init. eexists.
    split; [exact S1|]. split; [exact S2|]. split; [exact Hs|].
    split; [exact Hd|]. split; [exact Ht|].
    unfold belief_initialization in I. destruct measurement_initialize.
    + destruct I as (Hekf & obs0 & G & ->).
      split; [exact Hekf|]. exists obs0.
      split; [exact G|]. split; [apply selected_0; exact G | reflexivity].
    + destruct I as (unsq & cov & loc & mean & U & E & G & ->).
      rewrite <- Hd in Hcov.
      destruct (expand_covariance initial_covariance N Hcov)
        as (unsq' & cov' & U' & E' & Hshape & Hitem).
      rewrite U in U'. injection U' as <-.
      rewrite E in E'. injection E' as <-.
      exists cov, loc, mean.
      split; [exact Hshape|]. split; [exact Hitem|]. split; [exact G|].
      split; [intros idx; apply tensor_getitem_item; exact G | reflexivity].
Qed.

(** ** Which exceptions the tensor operations raise *)

Lemma swap_error (t : Tensor scalar) e :
  swap t = inl e -> is_assertion e = false.
Proof.
  unfold _swap_batch_sequence_axes, torch_transpose.
  destruct (swap_entries 0 1 (dims t)); [discriminate|].
  intros H. injection H as <-. reflexivity.
Qed.

Lemma tensor_getitem_error (t : Tensor scalar) i e :
  tensor_getitem t i = inl e -> is_assertion e = false.
Proof.
  unfold tensor_getitem. destruct (dims t) as [|[size s] ds].
  - intros H. injection H as <-. reflexivity.
  - destruct (i <? size); [discriminate|].
    intros H. injection H as <-. reflexivity.
Qed.

Lemma tensor_slice_from_error (t : Tensor scalar) i e :
  tensor_slice_from t i = inl e -> is_assertion e = false.
Proof.
  unfold tensor_slice_from. destruct (dims t) as [|[size s] ds].
  - intros H. injection H as <-. reflexivity.
  - discriminate.
Qed.

Lemma tensor_none_colon_colon_error (t : Tensor scalar) e :
  tensor_none_colon_colon t = inl e -> is_assertion e = false.
Proof.
  unfold tensor_none_colon_colon.
  destruct (dims t) as [|[size s] [|d ds]]; try discriminate;
    intros H; injection H as <-; reflexivity.
Qed.

Lemma tensor_expand_error (t : Tensor scalar) sizes e :
  tensor_expand t sizes = inl e -> is_assertion e = false.
Proof.
  unfold tensor_expand. destruct (length sizes <? ndim t).
  - intros H. injection H as <-. reflexivity.
  - destruct (expand_dims _ _); [discriminate|].
    intros H. injection H as <-. reflexivity.
Qed.

Lemma unpack3_error s e : unpack3 s = inl e -> is_assertion e = false.
Proof.
  unfold unpack3. destruct s as [|a [|b [|c [|? ?]]]]; try discriminate;
    intros H; injection H as <-; reflexivity.
Qed.

Lemma map_values_error (f : Tensor scalar -> PyErr + Tensor scalar) kvs e :
  (forall v e', f v = inl e' -> is_assertion e' = false) ->
  map_values f kvs = inl e -> is_assertion e = false.
Proof.
  intros Hf. induction kvs as [|[k v] kvs IH]; simpl; [discriminate|].
  destruct (f v) as [e'|v'] eqn:Ev.
  - intros H. injection H as <-. eapply Hf. exact Ev.
  - destruct (map_values f kvs) as [e'|r]; [|discriminate].
    intros H. injection H as <-. apply IH. reflexivity.
Qed.

Lemma SliceWrapper_map_error (f : Tensor scalar -> PyErr + Tensor scalar) data e :
  (forall v e', f v = inl e' -> is_assertion e' = false) ->
  SliceWrapper_map f data = inl e -> is_assertion e = false.
Proof.
  intros Hf. destruct data as [t|[k v] rest]; simpl.
  - destruct (f t) as [e'|t'] eqn:Et; [|discriminate].
    intros H. injection H as <-. eapply Hf. exact Et.
  - destruct (f v) as [e'|v'] eqn:Ev.
    + intros H. injection H as <-. eapply Hf. exact Ev.
    + destruct (map_values f rest) as [e'|r] eqn:Er; [|discriminate].
      intros H. injection H as <-. eapply map_values_error; eassumption.
Qed.

Lemma not_assertion (e : PyErr) msg :
  is_assertion e = false -> @inl (exn ExtExn) number (Py e)
                            <> inl (Py (AssertionError msg)).
Proof. intros H E. injection E as ->. discriminate H. Qed.

(** An operation of the loop body that failed did not fail an assertion. *)
Ltac operation_error :=
  match goal with
  | H : swap _ = inl _ |- _ => apply swap_error in H
  | H : unpack3 _ = inl _ |- _ => apply unpack3_error in H
  | H : tensor_getitem _ _ = inl _ |- _ => apply tensor_getitem_error in H
  | H : tensor_slice_from _ _ = inl _ |- _ => apply tensor_slice_from_error in H
  | H : tensor_none_colon_colon _ = inl _ |- _ =>
      apply tensor_none_colon_colon_error in H
  | H : tensor_expand _ _ = inl _ |- _ => apply tensor_expand_error in H
  | H : SliceWrapper_map swap _ = inl _ |- _ =>
      apply SliceWrapper_map_error in H; [|exact (@swap_error)]
  | H : SliceWrapper_getitem _ _ = inl _ |- _ =>
      apply SliceWrapper_map_error in H;
      [|intros ? ?; apply tensor_getitem_error]
  | H : SliceWrapper_slice_from _ _ = inl _ |- _ =>
      apply SliceWrapper_map_error in H;
      [|intros ? ?; apply tensor_slice_from_error]
  end.

(** Two runs of the same operation gave the same result. *)
Ltac same_result :=
  repeat match goal with
  | H1 : ?t = inr ?a, H2 : ?t = inr ?b |- _ =>
      rewrite H1 in H2; injection H2 as <-
  | H1 : ?t = (inr ?a, ?w), H2 : ?t = (inr ?b, ?w') |- _ =>
      rewrite H1 in H2; injection H2 as <- <-
  end.

Lemma eq_batch_size_true N bs : eq_batch_size N bs = true <-> bs = Some N.
Proof.
  unfold eq_batch_size. destruct bs as [n|]; [|split; discriminate].
  rewrite Nat.eqb_eq. split; [intros ->; reflexivity|].
  intros H. injection H as ->. reflexivity.
Qed.

(** C4, with the two conditions the listed ones leave out.  Let the
    minibatch arrive on the device, let the swapped states have shape
    (T, N, state_dim) with the model's [state_dim], let the swapped
    observations and controls lead with (T, N), let [initial_covariance] have
    shape (state_dim, state_dim), and let [forward_loop] return predictions of
    shape (T - 1, N, state_dim) whenever it returns.  If moreover N equals
    [dataloader.batch_size] on the first minibatch, and the model is a
    [VirtualSensorExtendedKalmanFilter] when [measurement_initialize] is set,
    then the loop body fails no assertion: whatever it ends with is not an
    [AssertionError]. *)
Theorem train_filter_batch_no_assertion_failure batch_idx batch_data epoch_loss
  (st : St) batch_gpu w sl obs ctrl T N obs1 ctrl1 :
  shape initial_covariance = [state_dim filter_model; state_dim filter_model] ->
  ext (to_device batch_data) (world st) = (inr batch_gpu, w) ->
  swap (states batch_gpu) = inr sl ->
  SliceWrapper_map swap (observations batch_gpu) = inr obs ->
  SliceWrapper_map swap (controls batch_gpu) = inr ctrl ->
  shape sl = [T; N; state_dim filter_model] ->
  firstn 2 (SliceWrapper_shape obs) = [T; N] ->
  firstn 2 (SliceWrapper_shape ctrl) = [T; N] ->
  SliceWrapper_slice_from obs 1 = inr obs1 ->
  SliceWrapper_slice_from ctrl 1 = inr ctrl1 ->
  (forall w0 pred w1,
     ext (forward_loop obs1 ctrl1) w0 = (inr pred, w1) ->
     map Z.of_nat (shape pred)
     = [Z.of_nat T - 1; Z.of_nat N; Z.of_nat (state_dim filter_model)]%Z) ->
  (batch_idx = 0 -> batch_size dataloader = Some N) ->
  (measurement_initialize = true ->
   is_VirtualSensorExtendedKalmanFilter filter_model = true) ->
  forall msg,
    fst (body batch_idx batch_data epoch_loss st)
    <> inl (Py (AssertionError msg)).
Proof.
  intros Hcov Hdev Hsl Hobs Hctrl Hshape Ho Hc Hobs1 Hctrl1 Hfwd Hbs Hekf msg.
  change (ensures (body batch_idx batch_data epoch_loss) st
            (fun r _ => r <> inl (Py (AssertionError msg)))).
  unfold train_filter_batch, shape_checks, populate_initial_belief, logging.
  repeat ensures_step.
  all: try discriminate.
  all: try (operation_error; apply not_assertion; assumption).
  all: exfalso; same_result.
  all: match goal with
       | H : unpack3 _ = inr _ |- _ =>
           rewrite Hshape in H; injection H as <- <- <-
       end.
  all: repeat match goal with
         | H : (_ =? _) = true |- _ => clear H
         | H : list_eqb Nat.eqb _ _ = true |- _ => clear H
         end.
  all: try match goal with
         | H : (_ =? _) = false |- _ =>
             rewrite Nat.eqb_refl in H; discriminate H
         end.
  all: try match goal with
         | H : list_eqb Nat.eqb _ _ = false |- _ =>
             rewrite ?Ho, ?Hc in H;
             assert (list_eqb Nat.eqb [T; N] [T; N] = true)
               by (apply list_eqb_nat_eq; reflexivity);
             congruence
         end.
  all: try match goal with
         | H : negb (_ =? 0) || _ = false |- _ =>
             apply orb_false_iff in H as [H0 H1];
             apply negb_false_iff, Nat.eqb_eq in H0;
             apply Hbs, eq_batch_size_true in H0; congruence
         end.
  all: try match goal with
         | H : is_VirtualSensorExtendedKalmanFilter _ = false |- _ =>
             rewrite Hekf in H; [discriminate H | reflexivity]
         end.
  all: match goal with
       | H : ext (forward_loop _ _) _ = (inr _, _),
         F : list_eqb Z.eqb _ _ = false |- _ =>
           apply Hfwd in H; rewrite H in F;
           assert (list_eqb Z.eqb
                     [Z.of_nat T - 1; Z.of_nat N;
                      Z.of_nat (state_dim filter_model)]%Z
                     [Z.of_nat T - 1; Z.of_nat N;
                      Z.of_nat (state_dim filter_model)]%Z = true)
             by (apply list_eqb_Z_eq; reflexivity);
           congruence
       end.
Qed.

Lemma call_step (c : Call scalar number) (st : St) v w :
  ext c (world st) = (inr v, w) ->
  call ext c st = (inr v, mkSt w (trace st ++ [Ev c (inr v)])).
Proof. intros H. unfold call. rewrite H. reflexivity. Qed.

(** The four assertions of lines 74-77 as one condition. *)
Lemma shape_checks_run batch_idx sl obs ctrl (st : St) T N d :
  shape sl = [T; N; d] ->
  shape_checks filter_model dataloader batch_idx sl obs ctrl st
  = (if (d =? state_dim filter_model)
        && list_eqb Nat.eqb (firstn 2 (SliceWrapper_shape obs)) [T; N]
        && list_eqb Nat.eqb (firstn 2 (SliceWrapper_shape ctrl)) [T; N]
        && (negb (batch_idx =? 0) || eq_batch_size N (batch_size dataloader))
     then inr (T, N, d)
     else inl (Py (AssertionError None)),
     st).
Proof.
  intros Hs. unfold shape_checks. rewrite Hs.
  unfold bind, lift, unpack3, assert_, ret, raise.
  destruct (d =? state_dim filter_model); [|reflexivity].
  destruct (list_eqb Nat.eqb (firstn 2 (SliceWrapper_shape obs)) [T; N]);
    [|reflexivity].
  destruct (list_eqb Nat.eqb (firstn 2 (SliceWrapper_shape ctrl)) [T; N]);
    [|reflexivity].
  destruct (negb (batch_idx =? 0) || eq_batch_size N (batch_size dataloader));
    reflexivity.
Qed.

(** A minibatch that fails one of the shape assertions of lines 74-77 ends
    the loop body with an [AssertionError] right after the device transfer. *)
Lemma train_filter_batch_shape_violation batch_idx batch_data epoch_loss
  (st : St) batch_gpu w sl obs ctrl T N d :
  ext (to_device batch_data) (world st) = (inr batch_gpu, w) ->
  swap (states batch_gpu) = inr sl ->
  SliceWrapper_map swap (observations batch_gpu) = inr obs ->
  SliceWrapper_map swap (controls batch_gpu) = inr ctrl ->
  shape sl = [T; N; d] ->
  d <> state_dim filter_model
  \/ firstn 2 (SliceWrapper_shape obs) <> [T; N]
  \/ firstn 2 (SliceWrapper_shape ctrl) <> [T; N]
  \/ (batch_idx = 0 /\ batch_size dataloader <> Some N) ->
  body batch_idx batch_data epoch_loss st
  = (inl (Py (AssertionError None)),
     mkSt w (trace st ++ [Ev (to_device batch_data) (inr batch_gpu)])).
Proof.
  intros Hdev Hsl Hobs Hctrl Hs Hv. unfold train_filter_batch.
  rewrite (bind_step _ (call_step _ Hdev)).
  rewrite Hsl, Hobs, Hctrl.
  unfold bind at 1. unfold lift at 1. unfold ret at 1.
  unfold bind at 1. unfold lift at 1. unfold ret at 1.
  unfold bind at 1. unfold lift at 1. unfold ret at 1.
  unfold bind at 1. erewrite shape_checks_run; [|exact Hs].
  match goal with
  | |- context [if ?c then _ else _] => destruct c eqn:C
  end; [|reflexivity].
  exfalso.
  apply andb_true_iff in C as [C C4].
  apply andb_true_iff in C as [C C3].
  apply andb_true_iff in C as [C1 C2].
  apply Nat.eqb_eq in C1. apply list_eqb_nat_eq in C2, C3.
  destruct Hv as [V|[V|[V|[V0 V]]]]; try contradiction.
  subst batch_idx. simpl in C4. apply eq_batch_size_true in C4. contradiction.
Qed.

(** C9. The batch-size assertion of line 77 binds the first minibatch only.
    At an index other than 0 the loop body does not depend on the dataloader
    at all, so a minibatch of any size is accepted there; at index 0 the body
    returns only if N equals [dataloader.batch_size], and a first minibatch
    that passes the other shape assertions with a different N fails this
    one. *)
Theorem train_filter_batch_size_check :
  (forall dataloader' batch_idx batch_data epoch_loss (st : St),
     batch_idx <> 0 ->
     body batch_idx batch_data epoch_loss st
     = train_filter_batch number_add ext filter_model dataloader'
         initial_covariance log_interval measurement_initialize optimizer_name
         batch_idx batch_data epoch_loss st)
  /\ (forall batch_data epoch_loss (st : St) epoch_loss' st',
        body 0 batch_data epoch_loss st = (inr epoch_loss', st') ->
        exists batch_gpu sl T N d rest,
          trace st'
          = trace st ++ Ev (to_device batch_data) (inr batch_gpu) :: rest
          /\ swap (states batch_gpu) = inr sl
          /\ shape sl = [T; N; d]
          /\ batch_size dataloader = Some N)
  /\ (forall batch_data epoch_loss (st : St) batch_gpu w sl obs ctrl T N,
        ext (to_device batch_data) (world st) = (inr batch_gpu, w) ->
        swap (states batch_gpu) = inr sl ->
        SliceWrapper_map swap (observations batch_gpu) = inr obs ->
        SliceWrapper_map swap (controls batch_gpu) = inr ctrl ->
        shape sl = [T; N; state_dim filter_model] ->
        firstn 2 (SliceWrapper_shape obs) = [T; N] ->
        firstn 2 (SliceWrapper_shape ctrl) = [T; N] ->
        batch_size dataloader <> Some N ->
        body 0 batch_data epoch_loss st
        = (inl (Py (AssertionError None)),
           mkSt w (trace st ++ [Ev (to_device batch_data) (inr batch_gpu)]))).
Proof.
  split; [|split].
  - intros dataloader' batch_idx batch_data epoch_loss st Hidx.
    unfold train_filter_batch, shape_checks.
    destruct (Nat.eqb_spec batch_idx 0) as [E|_]; [contradiction|].
    reflexivity.
  - intros batch_data epoch_loss st epoch_loss' st' H.
    apply train_filter_batch_inr in H
      as (bg & sl & obs & ctrl & T & N & d & init & obs1 & ctrl1 & pred & sl1
          & loss & loss_np & S1 & _ & _ & Hs & _ & _ & _ & Hbs & _ & _ & _ & _
          & _ & _ & _ & Ht).
    exists bg, sl, T, N, d. eexists.
    split; [exact Ht|]. split; [exact S1|]. split; [exact Hs|].
    apply Hbs. reflexivity.
  - intros batch_data epoch_loss st bg w sl obs ctrl T N Hdev Hsl Hobs Hctrl
           Hs Ho Hc Hbs.
    eapply train_filter_batch_shape_violation; try eassumption.
    right. right. right. split; [reflexivity | exact Hbs].
Qed.

Lemma consecutive_multiples (L : Z) (i j : nat) :
  (0 < L)%Z -> i < j ->
  (Z.of_nat i mod L = 0)%Z -> (Z.of_nat j mod L = 0)%Z ->
  (forall k, i < k < j -> (Z.of_nat k mod L <> 0)%Z) ->
  (Z.of_nat j = Z.of_nat i + L)%Z.
Proof.
  intros HL Hij Hi Hj Hbetween.
  apply Z.mod_divide in Hi, Hj; try lia.
  destruct Hi as [a Ha], Hj as [b Hb].
  assert (a < b)%Z by nia.
  destruct (Z.eq_dec b (a + 1)) as [->|NE]; [lia|].
  exfalso. apply (Hbetween (Z.to_nat (Z.of_nat i + L))).
  - split; [lia | nia].
  - rewrite Z2Nat.id by lia. rewrite Ha.
    replace (a * L + L)%Z with ((a + 1) * L)%Z by ring.
    apply Z.mod_mul. lia.
Qed.

(** C8, for a positive [log_interval]: on every minibatch on which
    the loop body returns, the helper's [log_scalar] is called (once, in the
    scope "train_filter_recurrent", on the loss of that minibatch) exactly
    when [batch_idx % log_interval == 0]; index 0 satisfies this; and two
    consecutive logged indices are [log_interval] apart. *)
Theorem train_filter_batch_logging :
  (0 < log_interval)%Z ->
  (forall batch_idx batch_data epoch_loss (st : St) epoch_loss' st',
     body batch_idx batch_data epoch_loss st = (inr epoch_loss', st') ->
     exists evs loss,
       trace st' = trace st ++ evs
       /\ In (Ev (minimize loss optimizer_name) (inr tt)) evs
       /\ filter (@is_log_scalar scalar number ExtExn) evs
          = if (Z.of_nat batch_idx mod log_interval =? 0)%Z
            then [Ev (log_scalar "train_filter_recurrent"%string
                                 "Training loss"%string loss) (inr tt)]
            else [])
  /\ (Z.of_nat 0 mod log_interval =? 0)%Z = true
  /\ (forall i j : nat,
        i < j ->
        (Z.of_nat i mod log_interval =? 0)%Z = true ->
        (Z.of_nat j mod log_interval =? 0)%Z = true ->
        (forall k, i < k < j -> (Z.of_nat k mod log_interval =? 0)%Z = false) ->
        (Z.of_nat j = Z.of_nat i + log_interval)%Z).
Proof.
  intros HL. split; [|split].
  - intros batch_idx batch_data epoch_loss st epoch_loss' st' H.
    apply train_filter_batch_inr in H
      as (bg & sl & obs & ctrl & T & N & d & init & obs1 & ctrl1 & pred & sl1
          & loss & loss_np & _ & _ & _ & _ & _ & _ & _ & _ & I & _ & _ & _ & _
          & _ & _ & Ht).
    eexists. exists loss. split; [exact Ht|]. split.
    + apply in_or_app. right. apply in_or_app. right.
      apply in_or_app. left. simpl. auto.
    + apply initialization_quiet in I as (_ & _ & Il).
      simpl. rewrite filter_app, Il. simpl.
      unfold logging_events.
      destruct (Z.of_nat batch_idx mod log_interval =? 0)%Z; reflexivity.
  - reflexivity.
  - intros i j Hij Hi Hj Hbetween.
    apply consecutive_multiples; try assumption.
    + apply Z.eqb_eq. exact Hi.
    + apply Z.eqb_eq. exact Hj.
    + intros k Hk. apply Z.eqb_neq. apply Hbetween. exact Hk.
Qed.

(** A minibatch on which [forward_loop] gives predictions of the wrong shape
    ends the loop body with an exception and without a gradient step. *)
Lemma train_filter_batch_prediction_shape batch_idx batch_data epoch_loss
  (st : St) batch_gpu w sl obs ctrl T N d obs1 ctrl1 :
  ext (to_device batch_data) (world st) = (inr batch_gpu, w) ->
  swap (states batch_gpu) = inr sl ->
  SliceWrapper_map swap (observations batch_gpu) = inr obs ->
  SliceWrapper_map swap (controls batch_gpu) = inr ctrl ->
  shape sl = [T; N; d] ->
  SliceWrapper_slice_from obs 1 = inr obs1 ->
  SliceWrapper_slice_from ctrl 1 = inr ctrl1 ->
  (forall w0 pred w1,
     ext (forward_loop obs1 ctrl1) w0 = (inr pred, w1) ->
     map Z.of_nat (shape pred)
     <> [Z.of_nat T - 1; Z.of_nat N; Z.of_nat d]%Z) ->
  exists e evs,
    fst (body batch_idx batch_data epoch_loss st) = inl e
    /\ trace (snd (body batch_idx batch_data epoch_loss st)) = trace st ++ evs
    /\ gradient_steps evs = 0.
Proof.
  intros Hdev Hsl Hobs Hctrl Hshape Hobs1 Hctrl1 Hbad.
  change (ensures (body batch_idx batch_data epoch_loss) st
            (fun r st' => exists e evs,
                 r = inl e /\ trace st' = trace st ++ evs
                 /\ gradient_steps evs = 0)).
  unfold train_filter_batch, shape_checks, populate_initial_belief, logging.
  repeat ensures_step.
  all: cbn [trace]; repeat rewrite <- app_assoc.
  all: try (eexists; eexists; split; [reflexivity|];
            split; [reflexivity | reflexivity]).
  all: exfalso; same_result.
  all: match goal with
       | H : unpack3 _ = inr _ |- _ =>
           rewrite Hshape in H; injection H as <- <- <-
       end.
  all: match goal with
       | H : ext (forward_loop _ _) _ = (inr _, _),
         F : list_eqb Z.eqb _ _ = true |- _ =>
           apply Hbad in H; apply list_eqb_Z_eq in F; contradiction
       end.
Qed.

(** C2, with the gradient steps counted per minibatch.  [train_filter]
    handles errors by assertions only, and recovers from nothing:
    - when the dataset is not a [SubsequenceDataset], or [initial_covariance]
      does not have shape (state_dim, state_dim), or the model is not in
      training mode, it raises [AssertionError] before any external call,
      so before any gradient step;
    - whenever the loop body raises [AssertionError] on a minibatch, it has
      taken no gradient step on that minibatch (those of earlier minibatches
      have been taken);
    - a minibatch whose swapped tensors violate one of the shape assertions
      of lines 74-77 makes the body raise [AssertionError] right after the
      device transfer, and one on which [forward_loop] gives predictions of
      the wrong shape makes it raise without a gradient step;
    - every exception of an external call ends the run at that call and is
      the exception of [train_filter], unchanged; none is caught. *)
Theorem train_filter_error_handling :
  (forall st : St,
     dataset_is_SubsequenceDataset dataloader = false
     \/ shape initial_covariance
        <> [state_dim filter_model; state_dim filter_model]
     \/ training filter_model = false ->
     exists msg, run_train_filter st = (inl (Py (AssertionError msg)), st))
  /\ (forall batch_idx batch_data epoch_loss (st : St) msg,
        fst (body batch_idx batch_data epoch_loss st)
        = inl (Py (AssertionError msg)) ->
        exists evs,
          trace (snd (body batch_idx batch_data epoch_loss st)) = trace st ++ evs
          /\ gradient_steps evs = 0)
  /\ (forall batch_idx batch_data epoch_loss (st : St) batch_gpu w sl obs ctrl
             T N d,
        ext (to_device batch_data) (world st) = (inr batch_gpu, w) ->
        swap (states batch_gpu) = inr sl ->
        SliceWrapper_map swap (observations batch_gpu) = inr obs ->
        SliceWrapper_map swap (controls batch_gpu) = inr ctrl ->
        shape sl = [T; N; d] ->
        (d <> state_dim filter_model
         \/ firstn 2 (SliceWrapper_shape obs) <> [T; N]
         \/ firstn 2 (SliceWrapper_shape ctrl) <> [T; N]
         \/ (batch_idx = 0 /\ batch_size dataloader <> Some N) ->
         body batch_idx batch_data epoch_loss st
         = (inl (Py (AssertionError None)),
            mkSt w (trace st ++ [Ev (to_device batch_data) (inr batch_gpu)])))
        /\ (forall obs1 ctrl1,
              SliceWrapper_slice_from obs 1 = inr obs1 ->
              SliceWrapper_slice_from ctrl 1 = inr ctrl1 ->
              (forall w0 pred w1,
                 ext (forward_loop obs1 ctrl1) w0 = (inr pred, w1) ->
                 map Z.of_nat (shape pred)
                 <> [Z.of_nat T - 1; Z.of_nat N; Z.of_nat d]%Z) ->
              exists e evs,
                fst (body batch_idx batch_data epoch_loss st) = inl e
                /\ trace (snd (body batch_idx batch_data epoch_loss st))
                   = trace st ++ evs
                /\ gradient_steps evs = 0))
  /\ transparent ext run_train_filter.
Proof.
  split; [|split; [|split]].
  - intros st Hv. unfold train_filter, bind, assert_, raise, ret.
    destruct (dataset_is_SubsequenceDataset dataloader);
      [|eexists; reflexivity].
    destruct (list_eqb Nat.eqb (shape initial_covariance)
                [state_dim filter_model; state_dim filter_model]) eqn:C;
      [|eexists; reflexivity].
    destruct (training filter_model); [|eexists; reflexivity].
    exfalso. apply list_eqb_nat_eq in C.
    destruct Hv as [V|[V|V]]; [discriminate V | contradiction | discriminate V].
  - intros batch_idx batch_data epoch_loss st msg.
    apply train_filter_batch_assertion.
  - intros batch_idx batch_data epoch_loss st bg w sl obs ctrl T N d
           Hdev Hsl Hobs Hctrl Hs.
    split.
    + intros Hv. eapply train_filter_batch_shape_violation; eassumption.
    + intros obs1 ctrl1 Ho1 Hc1 Hbad.
      eapply train_filter_batch_prediction_shape; eassumption.
  - apply train_filter_transparent.
Qed.

(** ** Every run of the loop body *)

Lemma swap_kind (t : Tensor scalar) e :
  swap t = inl e -> is_shape_error e = true.
Proof.
  unfold _swap_batch_sequence_axes, torch_transpose.
  destruct (swap_entries 0 1 (dims t)); [discriminate|].
  intros H. injection H as <-. reflexivity.
Qed.

Lemma tensor_getitem_kind (t : Tensor scalar) i e :
  tensor_getitem t i = inl e -> e = IndexError.
Proof.
  unfold tensor_getitem. destruct (dims t) as [|[size s] ds].
  - intros H. injection H as <-. reflexivity.
  - destruct (i <? size); [discriminate|].
    intros H. injection H as <-. reflexivity.
Qed.

Lemma tensor_slice_from_kind (t : Tensor scalar) i e :
  tensor_slice_from t i = inl e -> is_shape_error e = true.
Proof.
  unfold tensor_slice_from. destruct (dims t) as [|[size s] ds].
  - intros H. injection H as <-. reflexivity.
  - discriminate.
Qed.

Lemma tensor_none_colon_colon_kind (t : Tensor scalar) e :
  tensor_none_colon_colon t = inl e -> is_shape_error e = true.
Proof.
  unfold tensor_none_colon_colon.
  destruct (dims t) as [|[size s] [|d ds]]; try discriminate;
    intros H; injection H as <-; reflexivity.
Qed.

Lemma tensor_expand_kind (t : Tensor scalar) sizes e :
  tensor_expand t sizes = inl e -> is_shape_error e = true.
Proof.
  unfold tensor_expand. destruct (length sizes <? ndim t).
  - intros H. injection H as <-. reflexivity.
  - destruct (expand_dims _ _); [discriminate|].
    intros H. injection H as <-. reflexivity.
Qed.

Lemma unpack3_kind s e : unpack3 s = inl e -> is_shape_error e = true.
Proof.
  unfold unpack3. destruct s as [|a [|b [|c [|? ?]]]]; try discriminate;
    intros H; injection H as <-; reflexivity.
Qed.

Lemma map_values_kind (f : Tensor scalar -> PyErr + Tensor scalar) kvs e :
  (forall v e', f v = inl e' -> is_shape_error e' = true) ->
  map_values f kvs = inl e -> is_shape_error e = true.
Proof.
  intros Hf. induction kvs as [|[k v] kvs IH]; simpl; [discriminate|].
  destruct (f v) as [e'|v'] eqn:Ev.
  - intros H. injection H as <-. eapply Hf. exact Ev.
  - destruct (map_values f kvs) as [e'|r]; [|discriminate].
    intros H. injection H as <-. apply IH. reflexivity.
Qed.

Lemma SliceWrapper_map_kind (f : Tensor scalar -> PyErr + Tensor scalar) data e :
  (forall v e', f v = inl e' -> is_shape_error e' = true) ->
  SliceWrapper_map f data = inl e -> is_shape_error e = true.
Proof.
  intros Hf. destruct data as [t|[k v] rest]; simpl.
  - destruct (f t) as [e'|t'] eqn:Et; [|discriminate].
    intros H. injection H as <-. eapply Hf. exact Et.
  - destruct (f v) as [e'|v'] eqn:Ev.
    + intros H. injection H as <-. eapply Hf. exact Ev.
    + destruct (map_values f rest) as [e'|r] eqn:Er; [|discriminate].
      intros H. injection H as <-. eapply map_values_kind; eassumption.
Qed.

(** The exception of an operation of the loop body that failed. *)
Ltac operation_kind :=
  match goal with
  | H : swap _ = inl _ |- _ => apply swap_kind in H
  | H : unpack3 _ = inl _ |- _ => apply unpack3_kind in H
  | H : tensor_getitem _ _ = inl _ |- _ =>
      apply tensor_getitem_kind in H; subst
  | H : tensor_slice_from _ _ = inl _ |- _ => apply tensor_slice_from_kind in H
  | H : tensor_none_colon_colon _ = inl _ |- _ =>
      apply tensor_none_colon_colon_kind in H
  | H : tensor_expand _ _ = inl _ |- _ => apply tensor_expand_kind in H
  | H : SliceWrapper_map swap _ = inl _ |- _ =>
      apply SliceWrapper_map_kind in H; [|exact (@swap_kind)]
  | H : SliceWrapper_getitem _ _ = inl _ |- _ =>
      apply SliceWrapper_map_kind in H;
      [|intros ? ? K; apply tensor_getitem_kind in K; subst; reflexivity]
  | H : SliceWrapper_slice_from _ _ = inl _ |- _ =>
      apply SliceWrapper_map_kind in H;
      [|intros ? ?; apply tensor_slice_from_kind]
  end.

Local Abbreviation only_ekf :=
  (Some "Only supported for virtual sensor EKFs!"%string).

(** What any run of the loop body, returning or not, leaves in the trace,
    and what an exception of the module's own statements tells about it. *)
Lemma train_filter_batch_run batch_idx batch_data epoch_loss (st : St) :
  exists evs,
    trace (snd (body batch_idx batch_data epoch_loss st)) = trace st ++ evs
    /\ gradient_steps evs <= 1
    /\ filter (@is_print scalar number ExtExn) evs = []
    /\ forall e,
         fst (body batch_idx batch_data epoch_loss st) = inl (Py e) ->
         match e with
         | ZeroDivisionError =>
             log_interval = 0%Z /\ gradient_steps evs = 1
         | AssertionError msg =>
             (msg = None \/ msg = only_ekf) /\ gradient_steps evs = 0
         | _ => gradient_steps evs = 0
         end.
Proof.
  change (ensures (body batch_idx batch_data epoch_loss) st
            (fun r st' =>
               exists evs,
                 trace st' = trace st ++ evs
                 /\ gradient_steps evs <= 1
                 /\ filter (@is_print scalar number ExtExn) evs = []
                 /\ forall e,
                      r = inl (Py e) ->
                      match e with
                      | ZeroDivisionError =>
                          log_interval = 0%Z /\ gradient_steps evs = 1
                      | AssertionError msg =>
                          (msg = None \/ msg = only_ekf)
                          /\ gradient_steps evs = 0
                      | _ => gradient_steps evs = 0
                      end)).
  unfold train_filter_batch, shape_checks, populate_initial_belief, logging.
  repeat ensures_step.
  all: cbn [trace]; repeat rewrite <- app_assoc.
  all: eexists; split; [reflexivity|].
  all: split; [cbv; lia|]; split; [reflexivity|].
  all: intros e0 R; try discriminate R; injection R as <-.
  all: try (operation_kind;
            match goal with
            | K : is_shape_error ?e = true |- _ =>
                destruct e; try discriminate K; reflexivity
            | _ => reflexivity
            end).
  all: try (split; [left; reflexivity | reflexivity]).
  all: try (split; [right; reflexivity | reflexivity]).
  all: split; [apply Z.eqb_eq; assumption | reflexivity].
Qed.

(** X4. In no run of the loop body, returning or not, is [buddy.minimize]
    called twice.  When the body raises [ZeroDivisionError], [log_interval]
    is 0 and the gradient step of the minibatch has been taken; any other
    exception raised by the module's own statements ([AssertionError],
    [IndexError], [ValueError], [RuntimeError]) comes before the gradient
    step. *)
Theorem train_filter_batch_exceptions batch_idx batch_data
  epoch_loss (st : St) :
  exists evs,
    trace (snd (body batch_idx batch_data epoch_loss st)) = trace st ++ evs
    /\ gradient_steps evs <= 1
    /\ forall e,
         fst (body batch_idx batch_data epoch_loss st) = inl (Py e) ->
         if is_assertion e || is_shape_error e
         then gradient_steps evs = 0
         else e = ZeroDivisionError
              /\ log_interval = 0%Z /\ gradient_steps evs = 1.
Proof.
  destruct (train_filter_batch_run batch_idx batch_data epoch_loss st)
    as (evs & Ht & Hg & _ & He).
  exists evs. split; [exact Ht|]. split; [exact Hg|].
  intros e R. specialize (He e R). destruct e; simpl; try exact He.
  - destruct He as [_ He]. exact He.
  - split; [reflexivity | exact He].
Qed.

(** ** Every run of the loop and of [train_filter] *)

Lemma filter_print_app (evs1 evs2 : list Event) :
  filter (@is_print scalar number ExtExn) evs1 = [] ->
  filter (@is_print scalar number ExtExn) evs2 = [] ->
  filter (@is_print scalar number ExtExn) (evs1 ++ evs2) = [].
Proof. intros H1 H2. rewrite filter_app, H1, H2. reflexivity. Qed.

Lemma train_filter_loop_run remaining batch_idx epoch_loss (st : St) :
  exists evs,
    trace (snd (loop batch_idx remaining epoch_loss st)) = trace st ++ evs
    /\ gradient_steps evs <= length remaining
    /\ filter (@is_print scalar number ExtExn) evs = []
    /\ forall msg,
         fst (loop batch_idx remaining epoch_loss st)
         = inl (Py (AssertionError msg)) ->
         msg = None \/ msg = only_ekf.
Proof.
  revert batch_idx epoch_loss st.
  induction remaining as [|b bs IH]; intros batch_idx epoch_loss st.
  - exists []. simpl. rewrite app_nil_r.
    split; [reflexivity|]. split; [unfold gradient_steps; simpl; lia|].
    split; [reflexivity|]. intros msg R. discriminate R.
  - cbn [train_filter_loop]. unfold bind.
    destruct (train_filter_batch_run batch_idx b epoch_loss st)
      as (evs1 & Ht1 & Hg1 & Hp1 & He1).
    destruct (body batch_idx b epoch_loss st) as [[e|acc1] st1]; simpl in *.
    + exists evs1. split; [exact Ht1|]. split; [lia|]. split; [exact Hp1|].
      intros msg R. injection R as ->.
      destruct (He1 _ eq_refl) as [Hm _]. exact Hm.
    + destruct (IH (S batch_idx) acc1 st1) as (evs2 & Ht2 & Hg2 & Hp2 & He2).
      exists (evs1 ++ evs2).
      split; [rewrite Ht2, Ht1, app_assoc; reflexivity|].
      split; [rewrite gradient_steps_app; lia|].
      split; [apply filter_print_app; assumption | exact He2].
Qed.

(** X5. In every run of [train_filter], returning or not, the number of
    gradient steps is at most the number of minibatches, and it is exactly
    that number when the function returns. *)
Theorem train_filter_gradient_steps (st : St) :
  exists evs,
    trace (snd (run_train_filter st)) = trace st ++ evs
    /\ gradient_steps evs <= length (batches dataloader)
    /\ forall u,
         fst (run_train_filter st) = inr u ->
         gradient_steps evs = length (batches dataloader).
Proof.
  destruct (run_train_filter st) as [[e|u] st'] eqn:R; simpl.
  - revert R. unfold train_filter, bind, assert_, raise, ret.
    destruct (dataset_is_SubsequenceDataset dataloader);
      [|intros R; injection R as _ <-; exists []; rewrite app_nil_r;
        split; [reflexivity|]; split; [unfold gradient_steps; simpl; lia|];
        intros ? R; discriminate R].
    destruct (list_eqb Nat.eqb _ _);
      [|intros R; injection R as _ <-; exists []; rewrite app_nil_r;
        split; [reflexivity|]; split; [unfold gradient_steps; simpl; lia|];
        intros ? R; discriminate R].
    destruct (training filter_model);
      [|intros R; injection R as _ <-; exists []; rewrite app_nil_r;
        split; [reflexivity|]; split; [unfold gradient_steps; simpl; lia|];
        intros ? R; discriminate R].
    destruct (train_filter_loop_run (batches dataloader) 0 number_zero st)
      as (evs & Ht & Hg & _ & _).
    destruct (loop 0 (batches dataloader) number_zero st) as [[e'|acc] st1];
      simpl in *.
    + intros R. injection R as _ <-. exists evs.
      split; [exact Ht|]. split; [exact Hg|]. intros ? R. discriminate R.
    + destruct (length (batches dataloader) =? 0).
      * intros R. injection R as _ <-. exists evs.
        split; [exact Ht|]. split; [exact Hg|]. intros ? R. discriminate R.
      * unfold call. destruct (ext _ (world st1)) as [[x|v] w];
          intros R; [injection R as _ <- | discriminate R]; simpl.
        eexists. split; [rewrite Ht, <- app_assoc; reflexivity|].
        split; [rewrite gradient_steps_app; unfold gradient_steps at 2;
                simpl; lia|].
        intros ? R. discriminate R.
  - apply train_filter_inr in R as (_ & _ & _ & _ & acc & st1 & w & L & E).
    subst st'.
    apply train_filter_loop_inr in L as (evs & Ht & _ & _ & Hg).
    eexists. split; [simpl; rewrite Ht, <- app_assoc; reflexivity|].
    rewrite gradient_steps_app, Hg. unfold gradient_steps. simpl.
    split; [lia|]. intros ? _. lia.
Qed.

(** X6. With [log_interval = 0], [train_filter] never returns: with no
    minibatch the final division raises, and otherwise the modulo of line 117
    raises on the first minibatch that reaches it. *)
Theorem train_filter_log_interval_zero (st : St) :
  log_interval = 0%Z ->
  exists e, fst (run_train_filter st) = inl e.
Proof.
  intros HL. destruct (run_train_filter st) as [[e|u] st'] eqn:R; simpl.
  - exists e. reflexivity.
  - exfalso.
    apply train_filter_inr in R as (_ & _ & _ & NE & acc & st1 & w & L & _).
    destruct (batches dataloader) as [|b bs]; [apply NE; reflexivity|].
    simpl in L. apply bind_inr in L as (acc1 & st2 & B & _).
    apply train_filter_batch_inr in B
      as (bg & sl & obs & ctrl & T & N & d & init & obs1 & ctrl1 & pred & sl1
          & loss & loss_np & _ & _ & _ & _ & _ & _ & _ & _ & _ & _ & _ & _ & _
          & NZ & _).
    apply NZ. exact HL.
Qed.

(** X7. [train_filter] stops at the first minibatch on which the loop body
    raises: the exception and the state of that body are those of
    [train_filter]; the minibatches after it are not touched and nothing is
    printed. *)
Theorem train_filter_stops_at_first_failure (st : St) bs1 b bs2 acc1 st1 e st2 :
  dataset_is_SubsequenceDataset dataloader = true ->
  shape initial_covariance
  = [state_dim filter_model; state_dim filter_model] ->
  training filter_model = true ->
  batches dataloader = bs1 ++ b :: bs2 ->
  loop 0 bs1 number_zero st = (inr acc1, st1) ->
  body (length bs1) b acc1 st1 = (inl e, st2) ->
  run_train_filter st = (inl e, st2).
Proof.
  intros Hd Hc Ht Hb L B. unfold train_filter.
  rewrite Hd, Ht, Hb. apply list_eqb_nat_eq in Hc. rewrite Hc.
  unfold assert_ at 1 2 3. unfold bind at 1 2 3. unfold ret at 1 2 3.
  cbv beta iota.
  assert (forall idx acc (s : St),
            loop idx bs1 acc s = (inr acc1, st1) ->
            body (idx + length bs1) b acc1 st1 = (inl e, st2) ->
            loop idx (bs1 ++ b :: bs2) acc s = (inl e, st2)) as Hloop.
  { clear. induction bs1 as [|b1 bs1 IH]; intros idx acc s L B.
    - simpl in *. unfold ret in L. injection L as -> ->.
      rewrite Nat.add_0_r in B. unfold bind. rewrite B. reflexivity.
    - simpl in *. apply bind_inr in L as (acc0 & s0 & B1 & L).
      rewrite (bind_step _ B1). apply IH; [exact L|].
      replace (S idx + length bs1) with (idx + S (length bs1)) by lia.
      exact B. }
  unfold bind. rewrite (Hloop 0 _ _ L B). reflexivity.
Qed.

(** ** Logging over a whole run *)

Lemma logged_length batch_idx loss :
  length (filter (@is_log_scalar scalar number ExtExn) (logged batch_idx loss))
  = length (logged_indices log_interval batch_idx 1).
Proof.
  unfold logging_events, logged_indices. simpl.
  destruct (Z.of_nat batch_idx mod log_interval =? 0)%Z; reflexivity.
Qed.

Lemma logged_indices_S L start n :
  length (logged_indices L start (S n))
  = length (logged_indices L start 1) + length (logged_indices L (S start) n).
Proof.
  unfold logged_indices. simpl.
  destruct (Z.of_nat start mod L =? 0)%Z; reflexivity.
Qed.

Lemma train_filter_loop_logged remaining batch_idx epoch_loss (st : St)
  acc' st' :
  loop batch_idx remaining epoch_loss st = (inr acc', st') ->
  exists evs,
    trace st' = trace st ++ evs
    /\ length (filter (@is_log_scalar scalar number ExtExn) evs)
       = length (logged_indices log_interval batch_idx (length remaining)).
Proof.
  revert batch_idx epoch_loss st.
  induction remaining as [|b bs IH]; intros batch_idx epoch_loss st H; simpl in H.
  - unfold ret in H. injection H as <- <-. exists [].
    rewrite app_nil_r. split; reflexivity.
  - apply bind_inr in H as (acc1 & st1 & B & H).
    apply IH in H as (evs2 & Ht & Hl).
    apply train_filter_batch_inr in B
      as (bg & sl & obs & ctrl & T & N & d & init & obs1 & ctrl1 & pred & sl1
          & loss & loss_np & _ & _ & _ & _ & _ & _ & _ & _ & I & _ & _ & _ & _
          & _ & _ & Hb).
    apply initialization_quiet in I as (_ & _ & Il).
    eexists. split; [rewrite Ht, Hb, <- app_assoc; reflexivity|].
    cbn [length]. rewrite logged_indices_S, <- Hl, <- (logged_length batch_idx loss).
    repeat rewrite filter_app. repeat rewrite length_app.
    rewrite Il. simpl. lia.
Qed.

Lemma ceil_div_step (L n : Z) :
  (0 < L)%Z -> (0 <= n)%Z ->
  ((n + 1 + L - 1) / L
   = (n + L - 1) / L + (if n mod L =? 0 then 1 else 0))%Z.
Proof.
  intros HL Hn.
  pose proof (Z.div_mod n L ltac:(lia)) as Hdm.
  pose proof (Z.mod_pos_bound n L HL) as Hb.
  destruct (Z.eqb_spec (n mod L) 0) as [E|NE].
  - rewrite E in Hdm.
    rewrite <- (Z.div_unique (n + L - 1) L (n / L) (L - 1)) by lia.
    rewrite <- (Z.div_unique (n + 1 + L - 1) L (n / L + 1) 0) by lia.
    reflexivity.
  - rewrite <- (Z.div_unique (n + L - 1) L (n / L + 1) (n mod L - 1)) by lia.
    rewrite <- (Z.div_unique (n + 1 + L - 1) L (n / L + 1) (n mod L)) by lia.
    lia.
Qed.

Lemma logged_indices_count (L : Z) (n : nat) :
  (0 < L)%Z ->
  Z.of_nat (length (logged_indices L 0 n)) = ((Z.of_nat n + L - 1) / L)%Z.
Proof.
  intros HL. unfold logged_indices. induction n as [|n IH].
  - simpl. symmetry. apply Z.div_small. lia.
  - rewrite seq_S, filter_app, length_app, Nat2Z.inj_add, IH.
    replace (Z.of_nat (S n) + L - 1)%Z with (Z.of_nat n + 1 + L - 1)%Z by lia.
    rewrite ceil_div_step by lia. simpl.
    destruct (Z.of_nat n mod L =? 0)%Z; reflexivity.
Qed.

(** X8. When [train_filter] returns, the number of [log_scalar] calls it made
    is the number of minibatch indices [i < len(dataloader)] with
    [i % log_interval == 0]; for a positive [log_interval] that is
    [len(dataloader) / log_interval] rounded up. *)
Theorem train_filter_log_count (st : St) u st' :
  run_train_filter st = (inr u, st') ->
  exists evs,
    trace st' = trace st ++ evs
    /\ length (filter (@is_log_scalar scalar number ExtExn) evs)
       = length (logged_indices log_interval 0 (length (batches dataloader)))
    /\ ((0 < log_interval)%Z ->
        Z.of_nat (length (filter (@is_log_scalar scalar number ExtExn) evs))
        = ((Z.of_nat (length (batches dataloader)) + log_interval - 1)
           / log_interval)%Z).
Proof.
  intros R.
  apply train_filter_inr in R as (_ & _ & _ & _ & acc & st1 & w & L & E).
  subst st'.
  apply train_filter_loop_logged in L as (evs & Ht & Hl).
  eexists. split; [simpl; rewrite Ht, <- app_assoc; reflexivity|].
  assert (length (filter (@is_log_scalar scalar number ExtExn)
                    (evs ++ [Ev (print "(train_filter) Epoch training loss: "%string
                                       (number_div acc
                                          (length (batches dataloader))))
                                (inr tt)]))
          = length (logged_indices log_interval 0 (length (batches dataloader))))
    as Hc by (rewrite filter_app, length_app, Hl; simpl; lia).
  split; [exact Hc|].
  intros HL. rewrite Hc. apply logged_indices_count. exact HL.
Qed.

(** ** Minibatches of the wrong form *)

(** X9. On every minibatch on which the loop body returns, the tensors that
    came back from the device are batch-major and agree: the states have
    shape (N, T, state_dim) with the model's [state_dim] and at least one
    timestep, and every observation and control tensor has a shape starting
    with (N, T). *)
Theorem train_filter_batch_accepts_batch_major batch_idx batch_data epoch_loss
  (st : St) epoch_loss' st' :
  body batch_idx batch_data epoch_loss st = (inr epoch_loss', st') ->
  exists batch_gpu N T rest,
    trace st' = trace st ++ Ev (to_device batch_data) (inr batch_gpu) :: rest
    /\ shape (states batch_gpu) = [N; T; state_dim filter_model]
    /\ 1 <= T
    /\ Forall (fun v => firstn 2 (shape v) = [N; T])
              (dict_values (observations batch_gpu))
    /\ Forall (fun v => firstn 2 (shape v) = [N; T])
              (dict_values (controls batch_gpu)).
Proof.
  intros H.
  apply train_filter_batch_inr in H
    as (bg & sl & obs & ctrl & T & N & d & init & obs1 & ctrl1 & pred & sl1
        & loss & loss_np & S1 & S2 & S3 & Hs & Hd & Ho & Hc & _ & _ & _ & _ & P
        & _ & _ & _ & Ht).
  apply prediction_shape in P as [_ HT].
  assert (forall v v' : Tensor scalar,
            swap v = inr v' -> firstn 2 (shape v') = [T; N] ->
            firstn 2 (shape v) = [N; T]) as Hswap.
  { intros v v' Hv Hl.
    apply swap_batch_sequence_axes_inr in Hv as (d0 & d1 & ds & E & ->).
    unfold shape in *. rewrite E. simpl in *. congruence. }
  assert (forall data data' : TensorOrDict scalar,
            SliceWrapper_map swap data = inr data' ->
            firstn 2 (SliceWrapper_shape data') = [T; N] ->
            Forall (fun v => firstn 2 (shape v) = [N; T]) (dict_values data))
    as Hall.
  { intros data data' Hm Hl. apply leading_shape in Hl.
    apply SliceWrapper_map_values in Hm.
    induction Hm as [|v v' l l' Hv _ IH]; [constructor|].
    inversion Hl; subst. constructor; [eapply Hswap; eassumption|].
    apply IH. assumption. }
  exists bg, N, T. eexists.
  split; [exact Ht|]. split.
  - apply swap_batch_sequence_axes_inr in S1 as (d0 & d1 & ds & E & ->).
    unfold shape in *. rewrite E. simpl in *.
    injection Hs as <- <- Hds. rewrite Hds, Hd. reflexivity.
  - split; [exact HT|]. split; eapply Hall; eassumption.
Qed.



Lemma tensor_getitem_empty (t : Tensor scalar) i rest :
  shape t = 0 :: rest -> tensor_getitem t i = inl IndexError.
Proof.
  unfold shape, tensor_getitem. destruct (dims t) as [|[size s] ds];
    [discriminate|].
  simpl. intros H. injection H as -> _. reflexivity.
Qed.

Lemma SliceWrapper_getitem_empty (data : TensorOrDict scalar) i N :
  firstn 2 (SliceWrapper_shape data) = [0; N] ->
  SliceWrapper_getitem data i = inl IndexError.
Proof.
  intros H. apply leading_shape in H.
  unfold SliceWrapper_getitem.
  destruct data as [t|[k v] rest]; simpl in *; inversion H as [|? ? Hv _]; subst.
  - destruct (shape t) as [|a [|b r]] eqn:E; try discriminate.
    injection Hv as -> _. rewrite (tensor_getitem_empty _ _ E). reflexivity.
  - destruct (shape v) as [|a [|b r]] eqn:E; try discriminate.
    injection Hv as -> _. rewrite (tensor_getitem_empty _ _ E). reflexivity.
Qed.

(** X11. A minibatch of sequences of length 0 that passes every assertion
    of lines 74-81 ends the loop body with [IndexError] when the first
    timestep is taken (line 89 or line 97), right after the device transfer:
    the beliefs are not initialized and the filter is not called. *)
Theorem train_filter_batch_empty_sequences batch_idx batch_data epoch_loss
  (st : St) batch_gpu w sl obs ctrl N :
  shape initial_covariance = [state_dim filter_model; state_dim filter_model] ->
  ext (to_device batch_data) (world st) = (inr batch_gpu, w) ->
  swap (states batch_gpu) = inr sl ->
  SliceWrapper_map swap (observations batch_gpu) = inr obs ->
  SliceWrapper_map swap (controls batch_gpu) = inr ctrl ->
  shape sl = [0; N; state_dim filter_model] ->
  firstn 2 (SliceWrapper_shape obs) = [0; N] ->
  firstn 2 (SliceWrapper_shape ctrl) = [0; N] ->
  (batch_idx = 0 -> batch_size dataloader = Some N) ->
  (measurement_initialize = true ->
   is_VirtualSensorExtendedKalmanFilter filter_model = true) ->
  body batch_idx batch_data epoch_loss st
  = (inl (Py IndexError),
     mkSt w (trace st ++ [Ev (to_device batch_data) (inr batch_gpu)])).
Proof.
  intros Hcov Hdev Hsl Hobs Hctrl Hs Ho Hc Hbs Hekf. unfold train_filter_batch.
  rewrite (bind_step _ (call_step _ Hdev)).
  rewrite Hsl, Hobs, Hctrl.
  unfold bind at 1. unfold lift at 1. unfold ret at 1.
  unfold bind at 1. unfold lift at 1. unfold ret at 1.
  unfold bind at 1. unfold lift at 1. unfold ret at 1.
  unfold bind at 1. erewrite shape_checks_run; [|exact Hs].
  rewrite Nat.eqb_refl, Ho, Hc.
  assert (list_eqb Nat.eqb [0; N] [0; N] = true) as ->
    by (apply list_eqb_nat_eq; reflexivity).
  assert (negb (batch_idx =? 0) || eq_batch_size N (batch_size dataloader)
          = true) as ->.
  { destruct (Nat.eqb_spec batch_idx 0) as [E|_]; [|reflexivity].
    simpl. apply eq_batch_size_true. apply Hbs. exact E. }
  cbn [andb]. cbv beta iota.
  unfold bind at 1. unfold populate_initial_belief.
  destruct measurement_initialize.
  - rewrite Hekf by reflexivity.
    unfold assert_ at 1. unfold bind at 1. unfold ret at 1.
    rewrite (SliceWrapper_getitem_empty _ 0 Ho). reflexivity.
  - destruct (expand_covariance initial_covariance N Hcov)
      as (unsq & cov & U & E & _).
    rewrite U. unfold bind at 1. unfold lift at 1. unfold ret at 1.
    rewrite E. unfold bind at 1. unfold lift at 1. unfold ret at 1.
    rewrite (tensor_getitem_empty _ 0 Hs). reflexivity.
Qed.

(** ** What [train_filter] prints and which entry assertion spoke *)

Local Abbreviation epoch_message :=
  "(train_filter) Epoch training loss: "%string.
Local Abbreviation train_mode :=
  (Some "Model needs to be set to train mode"%string).

(** X12. In every run of [train_filter], returning or not, [print] is called
    at most once and as the very last call: on return the trace ends with the
    answered [print]; when a statement of the module itself raised, nothing
    was printed; when an external call raised, either nothing was printed or
    it was the [print] itself that raised. *)
Theorem train_filter_prints_last (st : St) :
  exists evs tail,
    trace (snd (run_train_filter st)) = trace st ++ evs ++ tail
    /\ filter (@is_print scalar number ExtExn) evs = []
    /\ match fst (run_train_filter st) with
       | inr _ => exists v, tail = [Ev (print epoch_message v) (inr tt)]
       | inl (Py _) => tail = []
       | inl (Raised x) =>
           tail = [] \/ exists v, tail = [Ev (print epoch_message v) (inl x)]
       end.
Proof.
  unfold train_filter, bind, assert_, raise, ret.
  destruct (dataset_is_SubsequenceDataset dataloader);
    [|exists [], []; simpl; rewrite app_nil_r; repeat split].
  destruct (list_eqb Nat.eqb _ _);
    [|exists [], []; simpl; rewrite app_nil_r; repeat split].
  destruct (training filter_model);
    [|exists [], []; simpl; rewrite app_nil_r; repeat split].
  destruct (train_filter_loop_run (batches dataloader) 0 number_zero st)
    as (evs & Ht & _ & Hp & _).
  destruct (loop 0 (batches dataloader) number_zero st) as [[e|acc] st1];
    simpl in *.
  - exists evs, []. rewrite app_nil_r. split; [exact Ht|]. split; [exact Hp|].
    destruct e; [reflexivity | left; reflexivity].
  - destruct (length (batches dataloader) =? 0).
    + exists evs, []. simpl. rewrite app_nil_r. repeat split; assumption.
    + unfold call. destruct (ext _ (world st1)) as [[x|[]] w]; simpl.
      * eexists evs, _. split; [rewrite Ht, <- app_assoc; reflexivity|].
        split; [exact Hp|]. right. eexists. reflexivity.
      * eexists evs, _. split; [rewrite Ht, <- app_assoc; reflexivity|].
        split; [exact Hp|]. eexists. reflexivity.
Qed.

(** X13. [train_filter] raises the [AssertionError] with the message
    "Model needs to be set to train mode" exactly when the dataset is a
    [SubsequenceDataset], [initial_covariance] has shape
    (state_dim, state_dim) and the model is not in training mode; no later
    statement raises an assertion with that message. *)
Theorem train_filter_train_mode_message (st : St) :
  fst (run_train_filter st) = inl (Py (AssertionError train_mode))
  <-> dataset_is_SubsequenceDataset dataloader = true
      /\ shape initial_covariance
         = [state_dim filter_model; state_dim filter_model]
      /\ training filter_model = false.
Proof.
  rewrite <- list_eqb_nat_eq.
  unfold train_filter, bind, assert_, raise, ret.
  destruct (dataset_is_SubsequenceDataset dataloader);
    [|simpl; split; [discriminate | intros (H & _); discriminate H]].
  destruct (list_eqb Nat.eqb _ _);
    [|simpl; split; [discriminate | intros (_ & H & _); discriminate H]].
  destruct (training filter_model);
    [|simpl; split; [intros _; repeat split | reflexivity]].
  split; [|intros (_ & _ & H); discriminate H].
  intros R. exfalso.
  destruct (train_filter_loop_run (batches dataloader) 0 number_zero st)
    as (evs & _ & _ & _ & Hm).
  destruct (loop 0 (batches dataloader) number_zero st) as [[e|acc] st1];
    simpl in *.
  - injection R as ->. destruct (Hm _ eq_refl) as [E|E]; discriminate E.
  - destruct (length (batches dataloader) =? 0); [discriminate R|].
    unfold call in R. destruct (ext _ (world st1)) as [[x|v] w];
      discriminate R.
Qed.

(** ** The order of the minibatches *)

Lemma device_transfers_app (evs1 evs2 : list Event) :
  device_transfers (evs1 ++ evs2)
  = device_transfers evs1 ++ device_transfers evs2.
Proof.
  induction evs1 as [|[c r] evs1 IH]; simpl; [reflexivity|].
  destruct c; simpl; rewrite IH; reflexivity.
Qed.

Lemma train_filter_batch_transfer batch_idx batch_data epoch_loss (st : St) :
  exists evs,
    trace (snd (body batch_idx batch_data epoch_loss st)) = trace st ++ evs
    /\ device_transfers evs = [batch_data].
Proof.
  change (ensures (body batch_idx batch_data epoch_loss) st
            (fun _ st' =>
               exists evs,
                 trace st' = trace st ++ evs
                 /\ device_transfers evs = [batch_data])).
  unfold train_filter_batch, shape_checks, populate_initial_belief, logging.
  repeat ensures_step.
  all: cbn [trace]; repeat rewrite <- app_assoc.
  all: eexists; split; reflexivity.
Qed.

Lemma train_filter_loop_transfers remaining batch_idx epoch_loss (st : St) :
  exists evs rest,
    trace (snd (loop batch_idx remaining epoch_loss st)) = trace st ++ evs
    /\ remaining = device_transfers evs ++ rest
    /\ forall acc,
         fst (loop batch_idx remaining epoch_loss st) = inr acc -> rest = [].
Proof.
  revert batch_idx epoch_loss st.
  induction remaining as [|b bs IH]; intros batch_idx epoch_loss st.
  - exists [], []. simpl. rewrite app_nil_r. repeat split.
  - cbn [train_filter_loop]. unfold bind.
    destruct (train_filter_batch_transfer batch_idx b epoch_loss st)
      as (evs1 & Ht1 & Hd1).
    destruct (body batch_idx b epoch_loss st) as [[e|acc1] st1]; simpl in *.
    + exists evs1, bs. split; [exact Ht1|]. rewrite Hd1.
      split; [reflexivity|]. intros acc R. discriminate R.
    + destruct (IH (S batch_idx) acc1 st1) as (evs2 & rest & Ht2 & Hd2 & Hr).
      exists (evs1 ++ evs2), rest.
      split; [rewrite Ht2, Ht1, app_assoc; reflexivity|].
      rewrite device_transfers_app, Hd1. simpl.
      split; [f_equal; exact Hd2 | exact Hr].
Qed.

(** X14. In every run of [train_filter], returning or not, the minibatches
    handed to [to_device] are an initial part of the dataloader's
    minibatches, in the dataloader's order and each once; when the function
    returns they are all of them. *)
Theorem train_filter_minibatch_order (st : St) :
  exists evs rest,
    trace (snd (run_train_filter st)) = trace st ++ evs
    /\ batches dataloader = device_transfers evs ++ rest
    /\ forall u, fst (run_train_filter st) = inr u -> rest = [].
Proof.
  unfold train_filter, bind, assert_, raise, ret.
  destruct (dataset_is_SubsequenceDataset dataloader);
    [|exists [], (batches dataloader); simpl; rewrite app_nil_r;
      split; [reflexivity|]; split; [reflexivity|];
      intros ? R; discriminate R].
  destruct (list_eqb Nat.eqb _ _);
    [|exists [], (batches dataloader); simpl; rewrite app_nil_r;
      split; [reflexivity|]; split; [reflexivity|];
      intros ? R; discriminate R].
  destruct (training filter_model);
    [|exists [], (batches dataloader); simpl; rewrite app_nil_r;
      split; [reflexivity|]; split; [reflexivity|];
      intros ? R; discriminate R].
  destruct (train_filter_loop_transfers (batches dataloader) 0 number_zero st)
    as (evs & rest & Ht & Hd & Hr).
  destruct (loop 0 (batches dataloader) number_zero st) as [[e|acc] st1];
    simpl in *.
  - exists evs, rest. split; [exact Ht|]. split; [exact Hd|].
    intros ? R. discriminate R.
  - specialize (Hr acc eq_refl). subst rest.
    destruct (length (batches dataloader) =? 0).
    + exists evs, []. simpl. repeat split; assumption.
    + unfold call. destruct (ext _ (world st1)) as [[x|v] w]; simpl.
      * eexists _, []. split; [rewrite Ht, <- app_assoc; reflexivity|].
        rewrite device_transfers_app. simpl. rewrite app_nil_r in Hd.
        repeat rewrite app_nil_r. split; [exact Hd | reflexivity].
      * eexists _, []. split; [rewrite Ht, <- app_assoc; reflexivity|].
        rewrite device_transfers_app. simpl. rewrite app_nil_r in Hd.
        repeat rewrite app_nil_r. split; [exact Hd | reflexivity].
Qed.

End TrainFilterFacts.

(** * The theorems on the concrete instance *)

(** C1 on the second of two minibatches. *)
Lemma train_filter_steps_in_order_witness :
  exists batch_gpu sl obs ctrl N d init obs1 ctrl1 pred sl1 loss before after,
    _swap_batch_sequence_axes (states batch_gpu) = inr sl
    /\ SliceWrapper_map (@_swap_batch_sequence_axes Z) (observations batch_gpu)
       = inr obs
    /\ SliceWrapper_map (@_swap_batch_sequence_axes Z) (controls batch_gpu)
       = inr ctrl
    /\ belief_initialization Demo.model Demo.covariance false N d sl obs init
    /\ SliceWrapper_slice_from obs 1 = inr obs1
    /\ SliceWrapper_slice_from ctrl 1 = inr ctrl1
    /\ tensor_slice_from sl 1 = inr sl1
    /\ trace (snd (Demo.run Demo.model [Demo.batch; Demo.batch3] 10 false))
       = before
         ++ [Ev (to_device Demo.batch3) (inr batch_gpu)]
         ++ init
         ++ [Ev (forward_loop obs1 ctrl1) (inr pred);
             Ev (loss_function pred sl1) (inr loss);
             Ev (minimize loss Demo.name) (inr tt)]
         ++ after.
Proof.
  apply (train_filter_steps_in_order 0%Z Z.add Demo.div (Demo.ext 1)
           Demo.model (Demo.loader [Demo.batch; Demo.batch3]) Demo.covariance
           10 false Demo.name Demo.st0 1).
  - vm_compute. reflexivity.
  - reflexivity.
Defined.

(** C5 on the first minibatch. *)
Lemma train_filter_batch_loss_witness :
  exists batch_gpu sl obs ctrl T N d obs1 ctrl1 pred sl1 loss before after,
    _swap_batch_sequence_axes (states batch_gpu) = inr sl
    /\ SliceWrapper_map (@_swap_batch_sequence_axes Z) (observations batch_gpu)
       = inr obs
    /\ SliceWrapper_map (@_swap_batch_sequence_axes Z) (controls batch_gpu)
       = inr ctrl
    /\ shape sl = [T; N; d]
    /\ 1 <= T
    /\ SliceWrapper_slice_from obs 1 = inr obs1
    /\ SliceWrapper_slice_from ctrl 1 = inr ctrl1
    /\ tensor_slice_from sl 1 = inr sl1
    /\ Forall2 (fun v v1 =>
                  forall t idx, item v1 (t :: idx) = item v (S t :: idx))
               (dict_values obs) (dict_values obs1)
    /\ Forall2 (fun v v1 =>
                  forall t idx, item v1 (t :: idx) = item v (S t :: idx))
               (dict_values ctrl) (dict_values ctrl1)
    /\ shape sl1 = [T - 1; N; d]
    /\ (forall t n k, item sl1 [t; n; k] = item sl [S t; n; k])
    /\ shape pred = [T - 1; N; d]
    /\ trace (snd (Demo.run_batch Demo.model 10 false 0 Demo.batch))
       = trace Demo.st0 ++ before
         ++ [Ev (forward_loop obs1 ctrl1) (inr pred);
             Ev (loss_function pred sl1) (inr loss)]
         ++ after.
Proof.
  apply (train_filter_batch_loss Z.add (Demo.ext 1) Demo.model (Demo.loader [])
           Demo.covariance 10 false Demo.name 0 Demo.batch 0%Z Demo.st0
           (epoch_loss' := 4%Z)).
  vm_compute. reflexivity.
Defined.

(** C7 on the first minibatch. *)
Lemma train_filter_batch_gradient_step_witness :
  exists evs pred sl1 loss before after,
    trace (snd (Demo.run_batch Demo.model 10 false 0 Demo.batch))
    = trace Demo.st0 ++ evs
    /\ interaction (Demo.ext 1) (world Demo.st0) evs
         (world (snd (Demo.run_batch Demo.model 10 false 0 Demo.batch)))
    /\ evs = before
             ++ [Ev (loss_function pred sl1) (inr loss);
                 Ev (minimize loss Demo.name) (inr tt)]
             ++ after
    /\ gradient_steps before = 0
    /\ gradient_steps after = 0
    /\ gradient_steps evs = 1.
Proof.
  apply (train_filter_batch_gradient_step Z.add (Demo.ext 1) Demo.model
           (Demo.loader []) Demo.covariance 10 false Demo.name 0 Demo.batch
           0%Z Demo.st0 (epoch_loss' := 4%Z)).
  vm_compute. reflexivity.
Defined.

(** C6 on the first minibatch, initialized from [Demo.covariance]. *)
Lemma train_filter_batch_belief_witness :
  shape Demo.covariance = [state_dim Demo.model; state_dim Demo.model]
  /\ exists batch_gpu sl obs T N d init after,
       _swap_batch_sequence_axes (states batch_gpu) = inr sl
       /\ SliceWrapper_map (@_swap_batch_sequence_axes Z)
            (observations batch_gpu) = inr obs
       /\ shape sl = [T; N; d]
       /\ d = state_dim Demo.model
       /\ trace (snd (Demo.run_batch Demo.model 10 false 0 Demo.batch))
          = trace Demo.st0 ++ [Ev (to_device Demo.batch) (inr batch_gpu)]
            ++ init ++ after
       /\ exists covariance loc mean,
            shape covariance = [N; d; d]
            /\ (forall n i j,
                  n < N ->
                  item covariance [n; i; j] = item Demo.covariance [i; j])
            /\ tensor_getitem sl 0 = inr loc
            /\ (forall idx, item loc idx = item sl (0 :: idx))
            /\ init = [Ev (MultivariateNormal_sample loc covariance)
                          (inr mean);
                       Ev (initialize_beliefs mean covariance) (inr tt)].
Proof.
  split; [reflexivity|].
  apply (proj2 (train_filter_batch_belief Z.add (Demo.ext 1) Demo.model
                  (Demo.loader []) Demo.covariance 10 false Demo.name
                  eq_refl)
               0 Demo.batch 0%Z Demo.st0 4%Z).
  vm_compute. reflexivity.
Defined.

(** C8 with [log_interval = 10], on the first minibatch. *)
Lemma train_filter_batch_logging_witness :
  (0 < 10)%Z
  /\ exists evs loss,
       trace (snd (Demo.run_batch Demo.model 10 false 0 Demo.batch))
       = trace Demo.st0 ++ evs
       /\ In (Ev (minimize loss Demo.name) (inr tt)) evs
       /\ filter (@is_log_scalar Z Z string) evs
          = [Ev (log_scalar "train_filter_recurrent"%string
                            "Training loss"%string loss) (inr tt)].
Proof.
  split; [reflexivity|].
  apply (proj1 (train_filter_batch_logging Z.add (Demo.ext 1) Demo.model
                  (Demo.loader []) Demo.covariance false Demo.name
                  (log_interval := 10) eq_refl)
               0 Demo.batch 0%Z Demo.st0 4%Z).
  vm_compute. reflexivity.
Defined.

(** C4 on the first minibatch, which the body also completes. *)
Lemma train_filter_batch_no_assertion_failure_witness :
  fst (Demo.run_batch Demo.model 10 false 0 Demo.batch) = inr 4%Z
  /\ forall msg,
       fst (Demo.run_batch Demo.model 10 false 0 Demo.batch)
       <> inl (Py (AssertionError msg)).
Proof.
  split; [vm_compute; reflexivity|].
  eapply (train_filter_batch_no_assertion_failure Z.add (Demo.ext 1)
            Demo.model (Demo.loader []) Demo.covariance 10 Demo.name 0%Z
            Demo.st0 (batch_gpu := Demo.batch) (T := 3) (N := 2)).
  - reflexivity.
  - reflexivity.
  - vm_compute. reflexivity.
  - vm_compute. reflexivity.
  - vm_compute. reflexivity.
  - vm_compute. reflexivity.
  - vm_compute. reflexivity.
  - vm_compute. reflexivity.
  - vm_compute. reflexivity.
  - vm_compute. reflexivity.
  - intros w0 pred w1 H. vm_compute in H. injection H as <- _.
    vm_compute. reflexivity.
  - intros _. reflexivity.
  - intros H. discriminate H.
Defined.

(** C2 on a model that is not in training mode. *)
Lemma train_filter_error_handling_witness :
  exists msg,
    train_filter 0%Z Z.add Demo.div (Demo.ext 1) (mkFilterModel 1 false false)
      (Demo.loader [Demo.batch]) Demo.covariance 10 false Demo.name Demo.st0
    = (inl (Py (AssertionError msg)), Demo.st0).
Proof.
  apply (proj1 (train_filter_error_handling 0%Z Z.add Demo.div (Demo.ext 1)
                  (mkFilterModel 1 false false) (Demo.loader [Demo.batch])
                  Demo.covariance 10 false Demo.name)).
  right. right. reflexivity.
Defined.

(** C9: a minibatch of three trajectories at index 1 runs the same whether
    the dataloader's batch size is 2 or 3, and the body returns on it. *)
Lemma train_filter_batch_size_check_witness :
  1 <> 0
  /\ fst (Demo.run_batch Demo.model 10 false 1 Demo.batch3) = inr 4%Z
  /\ Demo.run_batch Demo.model 10 false 1 Demo.batch3
     = train_filter_batch Z.add (Demo.ext 1) Demo.model
         (mkDataLoader true (Some 3) []) Demo.covariance 10 false Demo.name
         1 Demo.batch3 0%Z Demo.st0.
Proof.
  split; [discriminate|]. split; [vm_compute; reflexivity|].
  apply (proj1 (train_filter_batch_size_check Z.add (Demo.ext 1) Demo.model
                  (Demo.loader []) Demo.covariance 10 false Demo.name)).
  discriminate.
Defined.

(** C10 on two minibatches with losses 4 and 12: the printed value is 8. *)
Lemma train_filter_epoch_loss_witness :
  fst (Demo.run Demo.model [Demo.batch; Demo.batch3] 10 false) = inr tt
  /\ batches (Demo.loader [Demo.batch; Demo.batch3]) <> []
  /\ exists evs,
       trace (snd (Demo.run Demo.model [Demo.batch; Demo.batch3] 10 false))
       = trace Demo.st0 ++ evs
         ++ [Ev (print "(train_filter) Epoch training loss: "%string
                       (Demo.div
                          (fold_left Z.add (numpy_losses evs) 0%Z) 2))
                (inr tt)]
       /\ length (numpy_losses evs) = 2.
Proof.
  split; [vm_compute; reflexivity|].
  apply (proj1 (train_filter_epoch_loss 0%Z Z.add Demo.div (Demo.ext 1)
                  Demo.model (Demo.loader [Demo.batch; Demo.batch3])
                  Demo.covariance 10 false Demo.name Demo.st0)).
  vm_compute. reflexivity.
Defined.

(** An optimizer step that raises ends [train_filter] at that call, with the
    exception it raised; nothing is logged or printed after it. *)
Example train_filter_optimizer_failure :
  exists before loss w,
    train_filter 0%Z Z.add Demo.div (Demo.ext_failing 1) Demo.model
      (Demo.loader [Demo.batch; Demo.batch]) Demo.covariance 10 false
      Demo.name Demo.st0
    = (inl (Raised "optimizer failed"%string),
       mkSt w (before ++ [Ev (minimize loss Demo.name)
                             (inl "optimizer failed"%string)]))
    /\ gradient_steps before = 0.
Proof.
  eexists _, _, _. split.
  - vm_compute. rewrite <- (app_nil_l [Ev (minimize _ _) _]).
    repeat rewrite app_comm_cons. reflexivity.
  - reflexivity.
Qed.

(** * Where the claims as first stated fail *)

(** C2 as stated fails: the second minibatch has states of dimension 2 for a
    model of state dimension 1, so the input violates the shape
    precondition; [train_filter] raises [AssertionError], yet the gradient
    step of the first minibatch has been taken. *)
Lemma train_filter_error_handling_counterexample :
  (exists sl,
     _swap_batch_sequence_axes (states Demo.batch_dim2) = inr sl
     /\ shape sl = [3; 2; 2]
     /\ state_dim Demo.model = 1)
  /\ fst (Demo.run Demo.model [Demo.batch; Demo.batch_dim2] 10 false)
     = inl (Py (AssertionError None))
  /\ gradient_steps
       (trace (snd (Demo.run Demo.model [Demo.batch; Demo.batch_dim2] 10 false)))
     = 1.
Proof.
  split; [eexists; vm_compute; repeat split|].
  split; vm_compute; reflexivity.
Qed.

(** C4 as stated fails.  A first minibatch of three trajectories for a
    dataloader of batch size 2 meets the four listed shape conditions (the
    covariance is (1, 1), the swapped states are (3, 3, 1), observations and
    controls lead with (3, 3), [forward_loop] would return (2, 3, 1)), and the
    assertion of line 77 fails.  With [measurement_initialize] set and a model
    that is no virtual sensor EKF, a minibatch of the right size meets them
    too, and the assertion of line 81 fails. *)
Lemma train_filter_batch_no_assertion_failure_counterexample :
  (shape Demo.covariance = [state_dim Demo.model; state_dim Demo.model]
   /\ exists sl obs ctrl obs1 ctrl1,
        _swap_batch_sequence_axes (states Demo.batch3) = inr sl
        /\ SliceWrapper_map (@_swap_batch_sequence_axes Z)
             (observations Demo.batch3) = inr obs
        /\ SliceWrapper_map (@_swap_batch_sequence_axes Z)
             (controls Demo.batch3) = inr ctrl
        /\ shape sl = [3; 3; state_dim Demo.model]
        /\ firstn 2 (SliceWrapper_shape obs) = [3; 3]
        /\ firstn 2 (SliceWrapper_shape ctrl) = [3; 3]
        /\ SliceWrapper_slice_from obs 1 = inr obs1
        /\ SliceWrapper_slice_from ctrl 1 = inr ctrl1
        /\ (forall w0 pred w1,
              Demo.ext 1 (forward_loop obs1 ctrl1) w0 = (inr pred, w1) ->
              shape pred = [2; 3; state_dim Demo.model])
        /\ fst (Demo.run_batch Demo.model 10 false 0 Demo.batch3)
           = inl (Py (AssertionError None)))
  /\ (exists sl obs ctrl obs1 ctrl1,
        _swap_batch_sequence_axes (states Demo.batch) = inr sl
        /\ SliceWrapper_map (@_swap_batch_sequence_axes Z)
             (observations Demo.batch) = inr obs
        /\ SliceWrapper_map (@_swap_batch_sequence_axes Z)
             (controls Demo.batch) = inr ctrl
        /\ shape sl = [3; 2; state_dim Demo.model]
        /\ firstn 2 (SliceWrapper_shape obs) = [3; 2]
        /\ firstn 2 (SliceWrapper_shape ctrl) = [3; 2]
        /\ SliceWrapper_slice_from obs 1 = inr obs1
        /\ SliceWrapper_slice_from ctrl 1 = inr ctrl1
        /\ (forall w0 pred w1,
              Demo.ext 1 (forward_loop obs1 ctrl1) w0 = (inr pred, w1) ->
              shape pred = [2; 2; state_dim Demo.model])
        /\ fst (Demo.run_batch Demo.model 10 true 0 Demo.batch)
           = inl (Py (AssertionError
                        (Some "Only supported for virtual sensor EKFs!"%string)))).
Proof.
  split.
  - split; [reflexivity|].
    do 5 eexists.
    repeat (split; [vm_compute; reflexivity|]).
    split; [|vm_compute; reflexivity].
    intros w0 pred w1 H. vm_compute in H. injection H as <- _. reflexivity.
  - do 5 eexists.
    repeat (split; [vm_compute; reflexivity|]).
    split; [|vm_compute; reflexivity].
    intros w0 pred w1 H. vm_compute in H. injection H as <- _. reflexivity.
Qed.

(** C8 as stated fails for [log_interval = 0]: on the first minibatch the body
    takes the gradient step, then [batch_idx % log_interval] raises
    [ZeroDivisionError], and nothing is logged. *)
Lemma train_filter_batch_logging_counterexample :
  fst (Demo.run_batch Demo.model 0 false 0 Demo.batch)
  = inl (Py ZeroDivisionError)
  /\ gradient_steps (trace (snd (Demo.run_batch Demo.model 0 false 0 Demo.batch)))
     = 1
  /\ filter (@is_log_scalar Z Z string)
       (trace (snd (Demo.run_batch Demo.model 0 false 0 Demo.batch)))
     = [].
Proof. repeat split; vm_compute; reflexivity. Qed.

(** * Further properties on concrete inputs *)


(** X6 on one minibatch. *)
Lemma train_filter_log_interval_zero_witness :
  exists e, fst (Demo.run Demo.model [Demo.batch] 0 false) = inl e.
Proof.
  apply (train_filter_log_interval_zero 0%Z Z.add Demo.div (Demo.ext 1)
           Demo.model (Demo.loader [Demo.batch]) Demo.covariance false
           Demo.name Demo.st0 (log_interval := 0)).
  reflexivity.
Defined.

(** X7: the second of three minibatches has states of dimension 2; the third
    is not touched. *)
Lemma train_filter_stops_at_first_failure_witness :
  Demo.run Demo.model [Demo.batch; Demo.batch_dim2; Demo.batch] 10 false
  = (inl (Py (AssertionError None)),
     snd (train_filter_batch Z.add (Demo.ext 1) Demo.model
            (Demo.loader [Demo.batch; Demo.batch_dim2; Demo.batch])
            Demo.covariance 10 false Demo.name 1 Demo.batch_dim2 4%Z
            (snd (Demo.run_batch Demo.model 10 false 0 Demo.batch)))).
Proof.
  apply (train_filter_stops_at_first_failure 0%Z Z.add Demo.div (Demo.ext 1)
           Demo.model (Demo.loader [Demo.batch; Demo.batch_dim2; Demo.batch])
           Demo.covariance 10 false Demo.name Demo.st0
           [Demo.batch] Demo.batch_dim2 [Demo.batch] (acc1 := 4%Z)
           (st1 := snd (Demo.run_batch Demo.model 10 false 0 Demo.batch))).
  - reflexivity.
  - reflexivity.
  - reflexivity.
  - reflexivity.
  - vm_compute. reflexivity.
  - vm_compute. reflexivity.
Defined.

(** X8 on three minibatches with [log_interval = 2]: indices 0 and 2 are
    logged. *)
Lemma train_filter_log_count_witness :
  fst (Demo.run Demo.model [Demo.batch; Demo.batch3; Demo.batch] 2 false)
  = inr tt
  /\ exists evs,
       trace (snd (Demo.run Demo.model [Demo.batch; Demo.batch3; Demo.batch]
                            2 false))
       = trace Demo.st0 ++ evs
       /\ length (filter (@is_log_scalar Z Z string) evs)
          = length (logged_indices 2 0 3)
       /\ ((0 < 2)%Z ->
           Z.of_nat (length (filter (@is_log_scalar Z Z string) evs))
           = ((Z.of_nat 3 + 2 - 1) / 2)%Z).
Proof.
  split; [vm_compute; reflexivity|].
  apply (train_filter_log_count 0%Z Z.add Demo.div (Demo.ext 1) Demo.model
           (Demo.loader [Demo.batch; Demo.batch3; Demo.batch]) Demo.covariance
           2 false Demo.name Demo.st0 (u := tt)).
  vm_compute. reflexivity.
Defined.

(** X9 on the first minibatch. *)
Lemma train_filter_batch_accepts_batch_major_witness :
  exists batch_gpu N T rest,
    trace (snd (Demo.run_batch Demo.model 10 false 0 Demo.batch))
    = trace Demo.st0 ++ Ev (to_device Demo.batch) (inr batch_gpu) :: rest
    /\ shape (states batch_gpu) = [N; T; state_dim Demo.model]
    /\ 1 <= T
    /\ Forall (fun v => firstn 2 (shape v) = [N; T])
              (dict_values (observations batch_gpu))
    /\ Forall (fun v => firstn 2 (shape v) = [N; T])
              (dict_values (controls batch_gpu)).
Proof.
  apply (train_filter_batch_accepts_batch_major Z.add (Demo.ext 1) Demo.model
           (Demo.loader []) Demo.covariance 10 false Demo.name 0 Demo.batch
           0%Z Demo.st0 (epoch_loss' := 4%Z)).
  vm_compute. reflexivity.
Defined.


(** X11 on a minibatch of two sequences of length 0. *)
Lemma train_filter_batch_empty_sequences_witness :
  Demo.run_batch Demo.model 10 false 0 Cases.batch_empty
  = (inl (Py IndexError),
     mkSt 1 (trace Demo.st0
             ++ [Ev (to_device Cases.batch_empty) (inr Cases.batch_empty)])).
Proof.
  eapply (train_filter_batch_empty_sequences Z.add (Demo.ext 1) Demo.model
            (Demo.loader []) Demo.covariance 10 Demo.name 0%Z Demo.st0
            (N := 2)).
  - reflexivity.
  - reflexivity.
  - vm_compute. reflexivity.
  - vm_compute. reflexivity.
  - vm_compute. reflexivity.
  - vm_compute. reflexivity.
  - vm_compute. reflexivity.
  - vm_compute. reflexivity.
  - intros _. reflexivity.
  - intros H. discriminate H.
Defined.
